(** * The document store of reflex_docs_mcp: [database.py]

    [database.py] keeps documentation sections and a component catalogue in
    SQLite and answers full-text search, page reconstruction and component
    lookup.  Every function of the module opens a connection, runs a few SQL
    statements and closes the connection again.  The development below
    embeds those functions over an explicit database state:

    - a table is the list of its rows in rowid order;
    - a Python [str] is a [string] whose characters are code points below
      256, a Python [int] is a [Z], a nullable TEXT column is an
      [option string];
    - a call that raises returns [Raised], one that returns gives [Returned];
    - the triggers created by [init_db] are functions run by the statements
      that fire them, inside the same transaction. *)

From Stdlib Require Import List String Ascii ZArith QArith Qabs Lia Bool.
From Stdlib Require Import Permutation Sorted.
Import ListNotations.

Local Close Scope Q_scope.
Local Open Scope string_scope.
Local Open Scope list_scope.
Local Open Scope nat_scope.

(** ** Python string operations used by the module *)

Module Py.

(** [str.isspace] on one character, for code points below 256:
    TAB..CR, FS..US, SPACE, NEL and NBSP. *)
Definition isspace (c : ascii) : bool :=
  let n := nat_of_ascii c in
  ((9 <=? n) && (n <=? 13)) || ((28 <=? n) && (n <=? 32))
  || (n =? 133) || (n =? 160).

Fixpoint lstrip (s : string) : string :=
  match s with
  | EmptyString => EmptyString
  | String c s' => if isspace c then lstrip s' else s
  end.

Fixpoint rstrip (s : string) : string :=
  match s with
  | EmptyString => EmptyString
  | String c s' =>
      match rstrip s' with
      | EmptyString => if isspace c then EmptyString else String c EmptyString
      | r => String c r
      end
  end.

(** [s.strip()] *)
Definition strip (s : string) : string := rstrip (lstrip s).

(** [s.split()]: the maximal runs of non-whitespace characters, left to
    right.  [cur] is the run being read. *)
Fixpoint split_from (cur : string) (s : string) : list string :=
  match s with
  | EmptyString =>
      match cur with EmptyString => [] | _ => [cur] end
  | String c s' =>
      if isspace c
      then match cur with
           | EmptyString => split_from EmptyString s'
           | _ => cur :: split_from EmptyString s'
           end
      else split_from (cur ++ String c EmptyString) s'
  end.

Definition split (s : string) : list string := split_from EmptyString s.

(** [sep.join(parts)] *)
Definition join (sep : string) (parts : list string) : string :=
  String.concat sep parts.

(** [s.startswith(p)] *)
Definition startswith (p s : string) : bool := String.prefix p s.

(** [s.replace(old, new)] for a non-empty [old]: every occurrence of [old],
    found left to right without overlap, becomes [new].  [skip] counts the
    characters of the occurrence being replaced that are still to be
    dropped. *)
Fixpoint replace_from (old new : string) (skip : nat) (s : string) : string :=
  match s with
  | EmptyString => EmptyString
  | String c s' =>
      match skip with
      | S k => replace_from old new k s'
      | O =>
          if String.prefix old s
          then new ++ replace_from old new (String.length old - 1) s'
          else String c (replace_from old new 0 s')
      end
  end.

Definition replace (old new s : string) : string := replace_from old new 0 s.

(** [s[:n]] *)
Definition slice_to (n : nat) (s : string) : string := String.substring 0 n s.

(** Truthiness of a [str]: only the empty string is false. *)
Definition truthy (s : string) : bool :=
  match s with
  | EmptyString => false
  | String _ _ => true
  end.

End Py.

(** ** Outcomes of a call *)

Inductive exn : Type :=
| OverflowError                      (* a Python int that is no SQLite INTEGER *)
| OperationalError (msg : string).   (* raised by the engine *)

Inductive outcome (A : Type) : Type :=
| Returned (a : A)
| Raised (e : exn).

Arguments Returned {A} a.
Arguments Raised {A} e.

(** SQLite INTEGER is a signed 64-bit integer; the binding refuses any other
    Python int before the statement runs. *)
Definition fits_int64 (z : Z) : bool :=
  ((- 2 ^ 63 <=? z) && (z <? 2 ^ 63))%Z.

(** ** Tables *)

(** A row of [docs_sections]. *)
Record SectionRow : Type := {
  s_id : Z;
  s_slug : string;
  s_title : string;
  s_heading : string;
  s_level : Z;
  s_content : string;
  s_position : Z;
  s_url : string
}.

(** An entry of the FTS5 table [docs_sections_fts]: the four indexed columns
    under the rowid they were inserted with. *)
Record FtsEntry : Type := {
  fts_rowid : Z;
  fts_slug : string;
  fts_title : string;
  fts_heading : string;
  fts_content : string
}.

(** A row of [components]. *)
Record ComponentRow : Type := {
  c_id : Z;
  c_name : string;
  c_category : option string;
  c_description : string;
  c_doc_slug : option string;
  c_url : option string
}.

(** The database file after [init_db]: the three tables, and for each
    AUTOINCREMENT table the largest rowid it has ever handed out (its row of
    [sqlite_sequence]). *)
Record Database : Type := {
  docs_sections : list SectionRow;
  docs_sections_seq : Z;
  docs_sections_fts : list FtsEntry;
  components : list ComponentRow;
  components_seq : Z
}.

(** [init_db] on a new file: every CREATE ... IF NOT EXISTS creates an empty
    object. *)
Definition init_db : Database :=
  {| docs_sections := [];
     docs_sections_seq := 0;
     docs_sections_fts := [];
     components := [];
     components_seq := 0 |}.

(** ** Result models

    Modelled from the spec: [models.py] is not among the sources; the
    records below have the fields that [database.py] passes to the
    constructors and that the spec lists for each returned object. *)

Record DocResult : Type := {
  r_slug : string;
  r_title : string;
  r_score : Q;
  r_snippet : string;
  r_url : string
}.

Record DocSection : Type := {
  ds_heading : string;
  ds_level : Z;
  ds_content : string
}.

Record DocPage : Type := {
  p_slug : string;
  p_title : string;
  p_url : string;
  p_sections : list DocSection
}.

Record ComponentInfo : Type := {
  ci_name : string;
  ci_category : option string;
  ci_description : string;
  ci_doc_slug : option string;
  ci_url : option string
}.

Record Stats : Type := {
  st_sections : nat;
  st_pages : nat;
  st_components : nat
}.

(** ** Connections and transactions

    [get_connection] yields a connection and closes it on every exit path.
    Writes made through a connection stay pending until [commit]; closing
    (or losing) the connection drops whatever is pending. *)

Record Connection : Type := {
  durable : Database;
  pending : Database
}.

Definition connect (d : Database) : Connection :=
  {| durable := d; pending := d |}.

Definition write (w : Database -> Database) (c : Connection) : Connection :=
  {| durable := durable c; pending := w (pending c) |}.

Definition commit (c : Connection) : Connection :=
  {| durable := pending c; pending := pending c |}.

Definition close (c : Connection) : Database := durable c.

Definition run_writes (ws : list (Database -> Database)) (c : Connection)
  : Connection :=
  fold_left (fun c w => write w c) ws c.

(** A function body of the shape
    [with get_connection() as conn: execute ...; conn.commit()]. *)
Definition transaction (ws : list (Database -> Database)) (d : Database)
  : Database :=
  close (commit (run_writes ws (connect d))).

(** The same body when the process stops after [k] of its writes, before the
    commit. *)
Definition interrupted (k : nat) (ws : list (Database -> Database))
  (d : Database) : Database :=
  close (run_writes (firstn k ws) (connect d)).

(** ** ORDER BY

    The rows of a result set sorted on a key, ascending.  Rows with equal
    keys keep the order they were read in. *)

Section OrderBy.
Context {A : Type} (leb : A -> A -> bool).

Fixpoint insert_sorted (x : A) (l : list A) : list A :=
  match l with
  | [] => [x]
  | y :: l' => if leb x y then x :: l else y :: insert_sorted x l'
  end.

Fixpoint order_by (l : list A) : list A :=
  match l with
  | [] => []
  | x :: l' => insert_sorted x (order_by l')
  end.
End OrderBy.

(** [LIMIT n]: a negative [n] puts no bound on the number of rows. *)
Definition sql_limit {A : Type} (n : Z) (rows : list A) : list A :=
  if (n <? 0)%Z then rows else firstn (Z.to_nat n) rows.

(** [cursor.fetchone()] *)
Definition fetchone {A : Type} (rows : list A) : option A :=
  match rows with
  | [] => None
  | r :: _ => Some r
  end.

(** ** Statements that write *)

(** The entry that trigger [docs_sections_ai] builds from the new row. *)
Definition index_entry (r : SectionRow) : FtsEntry :=
  {| fts_rowid := s_id r;
     fts_slug := s_slug r;
     fts_title := s_title r;
     fts_heading := s_heading r;
     fts_content := s_content r |}.

(** The row write of [INSERT INTO docs_sections]. *)
Definition section_insert (new : SectionRow) (d : Database) : Database :=
  {| docs_sections := docs_sections d ++ [new];
     docs_sections_seq := s_id new;
     docs_sections_fts := docs_sections_fts d;
     components := components d;
     components_seq := components_seq d |}.

(** Trigger [docs_sections_ai], AFTER INSERT ON docs_sections. *)
Definition docs_sections_ai (new : SectionRow) (d : Database) : Database :=
  {| docs_sections := docs_sections d;
     docs_sections_seq := docs_sections_seq d;
     docs_sections_fts := docs_sections_fts d ++ [index_entry new];
     components := components d;
     components_seq := components_seq d |}.

(** The row write of [DELETE FROM docs_sections], for one row. *)
Definition section_delete (old : SectionRow) (d : Database) : Database :=
  {| docs_sections :=
       filter (fun r => negb (s_id r =? s_id old)%Z) (docs_sections d);
     docs_sections_seq := docs_sections_seq d;
     docs_sections_fts := docs_sections_fts d;
     components := components d;
     components_seq := components_seq d |}.

(** Trigger [docs_sections_ad], AFTER DELETE ON docs_sections: the FTS5
    'delete' command takes the entry of [old.id] out of the index. *)
Definition docs_sections_ad (old : SectionRow) (d : Database) : Database :=
  {| docs_sections := docs_sections d;
     docs_sections_seq := docs_sections_seq d;
     docs_sections_fts :=
       filter (fun e => negb (fts_rowid e =? s_id old)%Z) (docs_sections_fts d);
     components := components d;
     components_seq := components_seq d |}.

(** [INSERT INTO docs_sections (...) VALUES (...)]: the row gets the next
    AUTOINCREMENT id, then the trigger runs. *)
Definition insert_into_docs_sections
  (slug title heading : string) (level : Z) (content : string)
  (position : Z) (url : string) (d : Database) : list (Database -> Database) :=
  let new := {| s_id := docs_sections_seq d + 1;
                s_slug := slug; s_title := title; s_heading := heading;
                s_level := level; s_content := content;
                s_position := position; s_url := url |}%Z in
  [section_insert new; docs_sections_ai new].

(** [DELETE FROM docs_sections]: row by row, each followed by its trigger. *)
Definition delete_from_docs_sections (d : Database)
  : list (Database -> Database) :=
  flat_map (fun r => [section_delete r; docs_sections_ad r]) (docs_sections d).

(** [DELETE FROM components] *)
Definition delete_from_components (d : Database) : Database :=
  {| docs_sections := docs_sections d;
     docs_sections_seq := docs_sections_seq d;
     docs_sections_fts := docs_sections_fts d;
     components := [];
     components_seq := components_seq d |}.

(** Conflict resolution of [INSERT OR REPLACE]: the rows that hold the
    UNIQUE [name] already are deleted first. *)
Definition component_displace (name : string) (d : Database) : Database :=
  {| docs_sections := docs_sections d;
     docs_sections_seq := docs_sections_seq d;
     docs_sections_fts := docs_sections_fts d;
     components := filter (fun c => negb (c_name c =? name)%string) (components d);
     components_seq := components_seq d |}.

(** The row write of [INSERT OR REPLACE INTO components]. *)
Definition component_insert
  (name : string) (category : option string) (description : string)
  (doc_slug url : option string) (d : Database) : Database :=
  let new := {| c_id := components_seq d + 1;
                c_name := name; c_category := category;
                c_description := description;
                c_doc_slug := doc_slug; c_url := url |}%Z in
  {| docs_sections := docs_sections d;
     docs_sections_seq := docs_sections_seq d;
     docs_sections_fts := docs_sections_fts d;
     components := components d ++ [new];
     components_seq := c_id new |}.

(** ** The functions of [database.py] that write *)

Definition clear_db (d : Database) : Database :=
  transaction (delete_from_docs_sections d ++ [delete_from_components]) d.

Definition insert_section
  (slug title heading : string) (level : Z) (content : string)
  (position : Z) (url : string) (d : Database) : outcome Database :=
  if fits_int64 level && fits_int64 position
  then Returned
         (transaction
            (insert_into_docs_sections slug title heading level content
               position url d) d)
  else Raised OverflowError.

Definition insert_component
  (name : string) (category : option string) (description : string)
  (doc_slug url : option string) (d : Database) : Database :=
  transaction
    [component_displace name;
     component_insert name category description doc_slug url] d.

(** ** The functions of [database.py] that read the record tables *)

Definition doc_section (r : SectionRow) : DocSection :=
  {| ds_heading := s_heading r;
     ds_level := s_level r;
     ds_content := s_content r |}.

Definition component_info (c : ComponentRow) : ComponentInfo :=
  {| ci_name := c_name c;
     ci_category := c_category c;
     ci_description := c_description c;
     ci_doc_slug := c_doc_slug c;
     ci_url := c_url c |}.

Definition by_position (a b : SectionRow) : bool :=
  (s_position a <=? s_position b)%Z.

Definition by_name (a b : ComponentRow) : bool :=
  (c_name a <=? c_name b)%string.

(** [SELECT ... FROM docs_sections WHERE slug = ? ORDER BY position] *)
Definition select_page_rows (slug : string) (d : Database) : list SectionRow :=
  order_by by_position
    (filter (fun r => (s_slug r =? slug)%string) (docs_sections d)).

Definition get_page_sections (slug : string) (d : Database) : option DocPage :=
  let rows := select_page_rows slug d in
  match rows with
  | [] => None
  | first :: _ =>
      Some {| p_slug := s_slug first;
              p_title := s_title first;
              p_url := s_url first;
              p_sections := map doc_section rows |}
  end.

(** [WHERE category = ?]: a NULL category equals nothing. *)
Definition category_is (category : string) (c : ComponentRow) : bool :=
  match c_category c with
  | Some k => (k =? category)%string
  | None => false
  end.

Definition list_all_components (category : option string) (d : Database)
  : list ComponentInfo :=
  let is_set :=
    match category with
    | Some k => Py.truthy k
    | None => false
    end in
  let rows :=
    match category with
    | Some k =>
        if is_set
        then order_by by_name (filter (category_is k) (components d))
        else order_by by_name (components d)
    | None => order_by by_name (components d)
    end in
  map component_info rows.

(** [SELECT * FROM components WHERE name = ?] *)
Definition select_component (name : string) (d : Database)
  : list ComponentRow :=
  filter (fun c => (c_name c =? name)%string) (components d).

Definition search_name (name : string) : string :=
  if Py.startswith "rx." name then name else ("rx." ++ name)%string.

Definition get_component_by_name (name : string) (d : Database)
  : option ComponentInfo :=
  let row := fetchone (select_component (search_name name) d) in
  let row :=
    match row with
    | Some _ => row
    | None =>
        fetchone (select_component (Py.replace "rx." EmptyString name) d)
    end in
  match row with
  | None => None
  | Some c => Some (component_info c)
  end.

(** [COUNT(DISTINCT slug)]: the slugs, each kept at its first occurrence. *)
Fixpoint distinct (l : list string) : list string :=
  match l with
  | [] => []
  | x :: l' => x :: filter (fun y => negb (y =? x)%string) (distinct l')
  end.

Definition get_stats (d : Database) : Stats :=
  {| st_sections := List.length (docs_sections d);
     st_pages := List.length (distinct (map s_slug (docs_sections d)));
     st_components := List.length (components d) |}.

(** ** The FTS5 query language

    The operand of [MATCH] is read by the tokenizer of the FTS5 query
    parser: blanks separate tokens; a double quote opens a string that runs
    to the next double quote not followed by another one (two in a row stand
    for one quote character); a run of bareword characters is a string too,
    unless it spells [AND], [OR] or [NOT]; ten punctuation characters are
    tokens of their own; any other character is a syntax error, reported
    with that character, as is a string left open.  A NUL character ends
    the text.

    The engine parses while it reads and stops at the first error of either
    kind.  Here the text is read to its end before it is parsed: a call
    raises [OperationalError] exactly when the engine does, and where both
    the parser and, further on, the tokenizer object, the message is the
    tokenizer's.  A message of the parser is given without the token it
    stopped at. *)

Inductive fts5_token : Type :=
| FTS5_LP | FTS5_RP | FTS5_LCP | FTS5_RCP | FTS5_COLON | FTS5_COMMA
| FTS5_PLUS | FTS5_STAR | FTS5_MINUS | FTS5_CARET
| FTS5_OR | FTS5_AND | FTS5_NOT
| FTS5_STRING (text : string).

Definition dquote : ascii := ascii_of_nat 34.

Definition fts5_isspace (c : ascii) : bool :=
  let n := nat_of_ascii c in
  (n =? 32) || (n =? 9) || (n =? 10) || (n =? 13).

Definition fts5_isbareword (c : ascii) : bool :=
  let n := nat_of_ascii c in
  (128 <=? n) || ((48 <=? n) && (n <=? 57)) || ((65 <=? n) && (n <=? 90))
  || ((97 <=? n) && (n <=? 122)) || (n =? 95) || (n =? 26).

Definition fts5_punct (c : ascii) : option fts5_token :=
  match nat_of_ascii c with
  | 40 => Some FTS5_LP
  | 41 => Some FTS5_RP
  | 123 => Some FTS5_LCP
  | 125 => Some FTS5_RCP
  | 58 => Some FTS5_COLON
  | 44 => Some FTS5_COMMA
  | 43 => Some FTS5_PLUS
  | 42 => Some FTS5_STAR
  | 45 => Some FTS5_MINUS
  | 94 => Some FTS5_CARET
  | _ => None
  end.

Definition fts5_word (w : string) : fts5_token :=
  if (w =? "OR")%string then FTS5_OR
  else if (w =? "NOT")%string then FTS5_NOT
  else if (w =? "AND")%string then FTS5_AND
  else FTS5_STRING w.

(** Where the tokenizer stands: between tokens, inside a quoted string,
    just after a quote met inside a quoted string, or inside a bareword. *)
Inductive lex_state : Type :=
| Between
| Quoted (acc : string)
| QuoteSeen (acc : string)
| Bare (acc : string).

(** One character read: tokens completed by it and the state to go on in,
    the end of the text, or an error. *)
Inductive lex_next : Type :=
| Go (done : list fts5_token) (st : lex_state)
| Halt (done : list fts5_token)
| Error (msg : string).

Definition snoc (s : string) (c : ascii) : string :=
  (s ++ String c EmptyString)%string.

Definition begin_token (c : ascii) : lex_next :=
  if fts5_isspace c then Go [] Between
  else if (nat_of_ascii c =? 0) then Halt []
  else match fts5_punct c with
       | Some t => Go [t] Between
       | None =>
           if Ascii.eqb c dquote then Go [] (Quoted EmptyString)
           else if fts5_isbareword c then Go [] (Bare (String c EmptyString))
           else Error ("fts5: syntax error near "
                       ++ String dquote (String c (String dquote EmptyString)))
       end.

Definition after (t : fts5_token) (n : lex_next) : lex_next :=
  match n with
  | Go ts st => Go (t :: ts) st
  | Halt ts => Halt (t :: ts)
  | Error msg => Error msg
  end.

Definition lex_step (st : lex_state) (c : ascii) : lex_next :=
  match st with
  | Between => begin_token c
  | Quoted acc =>
      if Ascii.eqb c dquote then Go [] (QuoteSeen acc)
      else if (nat_of_ascii c =? 0) then Error "unterminated string"
      else Go [] (Quoted (snoc acc c))
  | QuoteSeen acc =>
      if Ascii.eqb c dquote then Go [] (Quoted (snoc acc dquote))
      else after (FTS5_STRING acc) (begin_token c)
  | Bare acc =>
      if fts5_isbareword c then Go [] (Bare (snoc acc c))
      else after (fts5_word acc) (begin_token c)
  end.

Definition lex_end (st : lex_state) : string + list fts5_token :=
  match st with
  | Between => inr []
  | Quoted _ => inl "unterminated string"
  | QuoteSeen acc => inr [FTS5_STRING acc]
  | Bare acc => inr [fts5_word acc]
  end.

Definition emit (ts : list fts5_token) (rest : string + list fts5_token)
  : string + list fts5_token :=
  match rest with
  | inl msg => inl msg
  | inr ts' => inr (ts ++ ts')
  end.

(** The token list of a query text, or the message of the error. *)
Fixpoint fts5_lex (st : lex_state) (s : string) : string + list fts5_token :=
  match s with
  | EmptyString => lex_end st
  | String c s' =>
      match lex_step st c with
      | Go ts st' => emit ts (fts5_lex st' s')
      | Halt ts => inr ts
      | Error msg => inl msg
      end
  end.

Definition fts5_tokens (query : string) : string + list fts5_token :=
  fts5_lex Between query.

(** The rest of the engine is taken as given: the parser of token lists
    ([None] for a syntax error), the test whether an index entry matches a
    parsed query, and the [bm25] rank of an entry within an index.  Ranks
    are floating-point numbers; they are only compared and negated here, so
    they are taken as rationals. *)
Record Fts5Engine : Type := {
  fts5_expr : Type;
  fts5_parse : list fts5_token -> option fts5_expr;
  fts5_match : fts5_expr -> FtsEntry -> bool;
  bm25 : list FtsEntry -> fts5_expr -> FtsEntry -> Q
}.

(** ** [search_sections] *)

(** A row of the search SELECT: the columns of the joined section and the
    rank of its index entry. *)
Record SearchRow : Type := {
  sr_slug : string;
  sr_title : string;
  sr_heading : string;
  sr_content : string;
  sr_url : string;
  sr_score : Q
}.

Definition by_score (a b : SearchRow) : bool :=
  Qle_bool (sr_score a) (sr_score b).

(** [content[:200] + "..." if len(content) > 200 else content] *)
Definition snippet (content : string) : string :=
  if 200 <? String.length content
  then (Py.slice_to 200 content ++ "...")%string
  else content.

Definition doc_result (row : SearchRow) : DocResult :=
  {| r_slug := sr_slug row;
     r_title := sr_title row;
     r_score := Qabs (sr_score row);
     r_snippet := snippet (sr_content row);
     r_url := sr_url row |}.

(** [f'"{term}"'] *)
Definition quote_term (term : string) : string :=
  String dquote (term ++ String dquote EmptyString).

(** [" ".join(f'"{term}"' for term in terms)] *)
Definition escaped_query (terms : list string) : string :=
  Py.join " " (map quote_term terms).

Section Search.
Variable E : Fts5Engine.

(** [FROM docs_sections_fts fts JOIN docs_sections s ON fts.rowid = s.id
     WHERE docs_sections_fts MATCH ?], each row with its [bm25]. *)
Definition matching_rows (expr : fts5_expr E) (d : Database)
  : list SearchRow :=
  flat_map
    (fun e =>
       if fts5_match E expr e
       then map (fun s =>
                   {| sr_slug := s_slug s;
                      sr_title := s_title s;
                      sr_heading := s_heading s;
                      sr_content := s_content s;
                      sr_url := s_url s;
                      sr_score := bm25 E (docs_sections_fts d) expr e |})
                (filter (fun s => (s_id s =? fts_rowid e)%Z)
                   (docs_sections d))
       else [])
    (docs_sections_fts d).

(** [... ORDER BY score LIMIT ?] *)
Definition select_search_rows (expr : fts5_expr E) (limit : Z)
  (d : Database) : list SearchRow :=
  sql_limit limit (order_by by_score (matching_rows expr d)).

Definition search_sections (query : string) (limit : Z) (d : Database)
  : outcome (list DocResult) :=
  let terms := Py.split (Py.strip query) in
  match terms with
  | [] => Returned []
  | _ :: _ =>
      let escaped := escaped_query terms in
      if fits_int64 limit
      then match fts5_tokens escaped with
           | inl msg => Raised (OperationalError msg)
           | inr tokens =>
               match fts5_parse E tokens with
               | None => Raised (OperationalError "fts5: syntax error")
               | Some expr =>
                   Returned (map doc_result (select_search_rows expr limit d))
               end
           end
      else Raised OverflowError
  end.
End Search.

(** ** A small engine

    An engine to run the functions on: a query is a list of phrases, an
    entry matches when every phrase occurs in one of its columns, and the
    rank favours short contents.  It reads no operators. *)

Definition occurs (needle hay : string) : bool :=
  match String.index 0 needle hay with
  | Some _ => true
  | None => false
  end.

Fixpoint phrases (ts : list fts5_token) : option (list string) :=
  match ts with
  | [] => Some []
  | FTS5_STRING w :: ts' =>
      match phrases ts' with
      | Some ws => Some (w :: ws)
      | None => None
      end
  | _ :: _ => None
  end.

Definition phrase_engine : Fts5Engine :=
  {| fts5_expr := list string;
     fts5_parse := fun ts => match ts with [] => None | _ => phrases ts end;
     fts5_match := fun ws e =>
       forallb (fun w => occurs w (fts_slug e) || occurs w (fts_title e)
                         || occurs w (fts_heading e) || occurs w (fts_content e))
               ws;
     bm25 := fun _ ws e =>
       Qopp (Z.of_nat (List.length ws)
             # Pos.of_succ_nat (String.length (fts_content e))) |}.

(** ** Histories

    What an ingester can do to the store, and what can happen to it: each
    call either runs to its commit or is cut off after some of its writes. *)

Inductive call : Type :=
| InsertSection (slug title heading : string) (level : Z) (content : string)
    (position : Z) (url : string)
| InsertComponent (name : string) (category : option string)
    (description : string) (doc_slug url : option string)
| ClearDb.

Definition perform (c : call) (d : Database) : Database :=
  match c with
  | InsertSection slug title heading level content position url =>
      match insert_section slug title heading level content position url d with
      | Returned d' => d'
      | Raised _ => d
      end
  | InsertComponent name category description doc_slug url =>
      insert_component name category description doc_slug url d
  | ClearDb => clear_db d
  end.

(** The writes a call makes before its commit. *)
Definition writes_of (c : call) (d : Database) : list (Database -> Database) :=
  match c with
  | InsertSection slug title heading level content position url =>
      if fits_int64 level && fits_int64 position
      then insert_into_docs_sections slug title heading level content
             position url d
      else []
  | InsertComponent name category description doc_slug url =>
      [component_displace name;
       component_insert name category description doc_slug url]
  | ClearDb => delete_from_docs_sections d ++ [delete_from_components]
  end.

Inductive event : Type :=
| Completed (c : call)
| Cut (c : call) (after_writes : nat).

Definition happen (e : event) (d : Database) : Database :=
  match e with
  | Completed c => perform c d
  | Cut c k => interrupted k (writes_of c d) d
  end.

Definition replay (h : list event) (d : Database) : Database :=
  fold_left (fun d e => happen e d) h d.

(** ** Predicates the properties are stated with *)

(** The index holds the projection of every stored section, and the
    sections have pairwise different ids. *)
Definition in_lockstep (d : Database) : Prop :=
  docs_sections_fts d = map index_entry (docs_sections d)
  /\ NoDup (map s_id (docs_sections d)).

(** No stored id exceeds the AUTOINCREMENT counter. *)
Definition ids_issued (d : Database) : Prop :=
  Forall (fun r => (s_id r <= docs_sections_seq d)%Z) (docs_sections d).

(** [z] is one of [ids]. *)
Definition id_among (ids : list Z) (z : Z) : bool :=
  existsb (fun i => (z =? i)%Z) ids.

(** No two stored components share a name. *)
Definition names_unique (d : Database) : Prop :=
  NoDup (map c_name (components d)).

Definition position_le (a b : SectionRow) : Prop :=
  (s_position a <= s_position b)%Z.

Definition name_le (a b : ComponentInfo) : Prop :=
  (ci_name a <=? ci_name b)%string = true.



(** The engine ranks at or below zero, as FTS5 does: its [bm25] is a sum of
    non-negative terms, negated. *)
Definition bm25_nonpositive (E : Fts5Engine) : Prop :=
  forall index expr entry, (bm25 E index expr entry <= 0)%Q.

(** Every character of [s] is white space; true of the empty string. *)
Fixpoint all_space (s : string) : bool :=
  match s with
  | EmptyString => true
  | String c s' => Py.isspace c && all_space s'
  end.

(** A term with no double quote and no NUL in it. *)
Definition plain_char (c : ascii) : bool :=
  negb (Ascii.eqb c dquote) && negb (nat_of_ascii c =? 0).

Fixpoint plain (s : string) : bool :=
  match s with
  | EmptyString => true
  | String c s' => plain_char c && plain s'
  end.

(** [rx.] occurs somewhere in [s]. *)
Fixpoint has_rx (s : string) : bool :=
  match s with
  | EmptyString => false
  | String _ s' => Py.startswith "rx." s || has_rx s'
  end.

(** ** The component lookup in the words of the specification

    First the name with [rx.] put in front unless it starts with it; then
    the input with a leading [rx.] taken off, the input itself when it has
    no such prefix. *)

Definition strip_rx_prefix (name : string) : string :=
  if Py.startswith "rx." name
  then String.substring 3 (String.length name - 3) name
  else name.

Definition getComponent_spec (name : string) (d : Database)
  : option ComponentInfo :=
  match fetchone (select_component (search_name name) d) with
  | Some c => Some (component_info c)
  | None =>
      match fetchone (select_component (strip_rx_prefix name) d) with
      | Some c => Some (component_info c)
      | None => None
      end
  end.

(** ** Sample data *)

(** The one-character string holding a double quote. *)
Definition quote_mark : string := String dquote EmptyString.

Definition box_url : string := "https://reflex.dev/docs/library/layout/box".

(** Two sections of one page and two components, ingested from scratch. *)
Definition box_db : Database :=
  replay
    [Completed (InsertSection "library/layout/box" "Box" "Overview" 1
                  "the box wraps its children in a div" 0 box_url);
     Completed (InsertSection "library/layout/box" "Box" "Usage" 2
                  "use rx.box" 1 box_url);
     Completed (InsertComponent "rx.box" (Some "layout") "A container"
                  (Some "library/layout/box") (Some box_url));
     Completed (InsertComponent "box" None "A bare name" None None)]
    init_db.

(** What a search for [box] finds in [box_db], best first. *)
Definition box_hit_usage : DocResult :=
  {| r_slug := "library/layout/box"; r_title := "Box"; r_score := 1 # 11;
     r_snippet := "use rx.box"; r_url := box_url |}.

Definition box_hit_overview : DocResult :=
  {| r_slug := "library/layout/box"; r_title := "Box"; r_score := 1 # 36;
     r_snippet := "the box wraps its children in a div"; r_url := box_url |}.

(** A content of 279 characters. *)
Definition long_content : string :=
  String.concat " " (List.repeat "layout" 40).

(** [box_db] with a third, long section. *)
Definition long_db : Database :=
  perform (InsertSection "library/layout/box" "Box" "Notes" 2 long_content 2
             box_url) box_db.

(** What a search for [layout] finds in [long_db]: the slug of every
    section holds the word. *)
Definition long_hit : DocResult :=
  {| r_slug := "library/layout/box"; r_title := "Box"; r_score := 1 # 280;
     r_snippet := (Py.slice_to 200 long_content ++ "...")%string;
     r_url := box_url |}.

Definition long_hits : list DocResult :=
  [box_hit_usage; box_hit_overview; long_hit].

(** ** The HTTP endpoints of [api.py]

    Each endpoint calls one function of [database.py] and wraps what it
    returns.  A response is the body of a 200, an [HTTPException] raised by
    the endpoint, or the refusal of a request whose parameters break the
    bounds declared with [Query]. *)

Inductive response (A : Type) : Type :=
| Ok200 (body : A)
| HTTPException (status_code : Z) (detail : string)
| RequestValidationError.

Arguments Ok200 {A} body.
Arguments HTTPException {A} status_code detail.
Arguments RequestValidationError {A}.

(** [str(e)] *)
Definition str_exn (e : exn) : string :=
  match e with
  | OverflowError => "Python int too large to convert to SQLite INTEGER"
  | OperationalError msg => msg
  end.

Record SearchResponse : Type := {
  sp_query : string;
  sp_results : list DocResult;
  sp_count : nat
}.

Record HealthResponse : Type := {
  hr_status : string;
  hr_database_ready : bool;
  hr_stats : option Stats
}.

Record ComponentsResponse : Type := {
  cr_category : option string;
  cr_components : list ComponentInfo;
  cr_count : nat
}.

Module Api.

(** [GET /]: [get_stats] reads two tables that [init_db] has created, so the
    [except] branch is not entered over a [Database]. *)
Definition health_check (d : Database) : HealthResponse :=
  let stats := get_stats d in
  let db_ready := 0 <? st_sections stats in
  {| hr_status := if db_ready then "healthy" else "no_data";
     hr_database_ready := db_ready;
     hr_stats := Some stats |}.

(** [GET /search], with [limit: int = Query(10, ge=1, le=50)]. *)
Definition search_docs (E : Fts5Engine) (query : string) (limit : Z)
  (d : Database) : response SearchResponse :=
  if ((1 <=? limit) && (limit <=? 50))%Z
  then match search_sections E query limit d with
       | Returned results =>
           Ok200 {| sp_query := query;
                    sp_results := results;
                    sp_count := List.length results |}
       | Raised e => HTTPException 500 (str_exn e)
       end
  else RequestValidationError.

(** [GET /doc/{slug:path}] *)
Definition get_doc (slug : string) (d : Database) : response DocPage :=
  match get_page_sections slug d with
  | None => HTTPException 404 ("Document not found: " ++ slug)
  | Some page => Ok200 page
  end.

(** [GET /components] *)
Definition list_components (category : option string) (d : Database)
  : ComponentsResponse :=
  let components := list_all_components category d in
  {| cr_category := category;
     cr_components := components;
     cr_count := List.length components |}.

(** [GET /component/{name}] *)
Definition get_component (name : string) (d : Database)
  : response ComponentInfo :=
  match get_component_by_name name d with
  | None => HTTPException 404 ("Component not found: " ++ name)
  | Some component => Ok200 component
  end.

(** [GET /stats] *)
Definition get_stats (d : Database) : Stats :=
  let stats := get_stats d in
  {| st_sections := st_sections stats;
     st_pages := st_pages stats;
     st_components := st_components stats |}.

End Api.

(** ** Further predicates and sample data *)



(** No character of [s] is white space. *)
Fixpoint no_space (s : string) : bool :=
  match s with
  | EmptyString => true
  | String c s' => negb (Py.isspace c) && no_space s'
  end.

(** A term as [split] yields them. *)
Definition is_term (t : string) : Prop :=
  t <> EmptyString /\ no_space t = true.

(** The history that leaves [box_db]. *)
Definition box_history : list event :=
  [Completed (InsertSection "library/layout/box" "Box" "Overview" 1
                "the box wraps its children in a div" 0 box_url);
   Completed (InsertSection "library/layout/box" "Box" "Usage" 2
                "use rx.box" 1 box_url);
   Completed (InsertComponent "rx.box" (Some "layout") "A container"
                (Some "library/layout/box") (Some box_url));
   Completed (InsertComponent "box" None "A bare name" None None)].

(** A store with one section, on the page [guide]. *)
Definition guide_db : Database :=
  perform (InsertSection "guide" "Guide" "Intro" 1 "first words" 0 "u")
    init_db.

(** Some stored section carries the slug. *)
Definition slug_stored (slug : string) (d : Database) : bool :=
  existsb (fun r => (s_slug r =? slug)%string) (docs_sections d).

(** Some stored component carries the name. *)
Definition name_stored (name : string) (d : Database) : bool :=
  existsb (fun c => (c_name c =? name)%string) (components d).



(** * Properties *)

(** ** Sorting *)

Section OrderByFacts.
Context {A : Type} (leb : A -> A -> bool).

Lemma insert_sorted_perm (x : A) (l : list A) :
  Permutation (insert_sorted leb x l) (x :: l).
Proof.
  induction l as [|y l IH]; simpl.
  - reflexivity.
  - destruct (leb x y).
    + reflexivity.
    + rewrite IH. apply perm_swap.
Qed.

Lemma order_by_perm (l : list A) : Permutation (order_by leb l) l.
Proof.
  induction l as [|x l IH]; simpl.
  - constructor.
  - rewrite insert_sorted_perm. now constructor.
Qed.

Lemma order_by_In (l : list A) (x : A) : In x (order_by leb l) <-> In x l.
Proof.
  split; apply Permutation_in;
    [apply order_by_perm | symmetry; apply order_by_perm].
Qed.

Lemma order_by_length (l : list A) : List.length (order_by leb l) = List.length l.
Proof. apply Permutation_length, order_by_perm. Qed.

Hypothesis leb_total : forall a b, leb a b = false -> leb b a = true.

Let le (a b : A) : Prop := leb a b = true.

Lemma insert_sorted_sorted (x : A) (l : list A) :
  Sorted le l -> Sorted le (insert_sorted leb x l).
Proof.
  induction 1 as [|y l Hs IH Hhd]; simpl.
  - repeat constructor.
  - destruct (leb x y) eqn:Hxy.
    + constructor; [now constructor | now constructor].
    + constructor; [exact IH |].
      destruct l as [|z l]; simpl.
      * constructor. now apply leb_total.
      * destruct (leb x z); constructor.
        -- now apply leb_total.
        -- now inversion Hhd.
Qed.

Lemma order_by_sorted (l : list A) : Sorted le (order_by leb l).
Proof.
  induction l as [|x l IH]; simpl.
  - constructor.
  - now apply insert_sorted_sorted.
Qed.

Hypothesis leb_trans :
  forall a b c, leb a b = true -> leb b c = true -> leb a c = true.

Lemma order_by_strongly_sorted (l : list A) :
  StronglySorted le (order_by leb l).
Proof.
  apply Sorted_StronglySorted.
  - intros a b c. apply leb_trans.
  - apply order_by_sorted.
Qed.
End OrderByFacts.

Lemma StronglySorted_weaken {A : Type} (R S : A -> A -> Prop) (l : list A) :
  (forall a b, R a b -> S a b) -> StronglySorted R l -> StronglySorted S l.
Proof.
  intros HRS. induction 1 as [|a l _ IH Hall]; constructor.
  - exact IH.
  - eapply Forall_impl; [|exact Hall]. intros b. apply HRS.
Qed.

(** ** Transactions *)

Lemma run_writes_durable (ws : list (Database -> Database)) (c : Connection) :
  durable (run_writes ws c) = durable c.
Proof.
  revert c. induction ws as [|w ws IH]; intros c; simpl.
  - reflexivity.
  - unfold run_writes in *. simpl. now rewrite IH.
Qed.

Lemma run_writes_pending (ws : list (Database -> Database)) (c : Connection) :
  pending (run_writes ws c) = fold_left (fun d w => w d) ws (pending c).
Proof.
  revert c. induction ws as [|w ws IH]; intros c; simpl.
  - reflexivity.
  - unfold run_writes in *. simpl. now rewrite IH.
Qed.

(** A committed transaction leaves the writes applied in order. *)
Lemma transaction_applies (ws : list (Database -> Database)) (d : Database) :
  transaction ws d = fold_left (fun d w => w d) ws d.
Proof.
  unfold transaction, close, commit. simpl. now rewrite run_writes_pending.
Qed.

(** A transaction cut before its commit leaves the file as it was. *)
Lemma interrupted_keeps (k : nat) (ws : list (Database -> Database))
  (d : Database) : interrupted k ws d = d.
Proof. unfold interrupted, close. now rewrite run_writes_durable. Qed.

(** ** The index follows the section table *)

Lemma fits_int64_bounds (z : Z) :
  fits_int64 z = true <-> (- 2 ^ 63 <= z < 2 ^ 63)%Z.
Proof. unfold fits_int64. rewrite andb_true_iff, Z.leb_le, Z.ltb_lt. tauto. Qed.

Lemma insert_section_returned
  slug title heading level content position url d d' :
  insert_section slug title heading level content position url d = Returned d' ->
  let new := {| s_id := docs_sections_seq d + 1;
                s_slug := slug; s_title := title; s_heading := heading;
                s_level := level; s_content := content;
                s_position := position; s_url := url |}%Z in
  d' = docs_sections_ai new (section_insert new d).
Proof.
  unfold insert_section. destruct (fits_int64 level && fits_int64 position).
  - intros H. injection H as <-. now rewrite transaction_applies.
  - discriminate.
Qed.

Lemma fresh_id_not_issued (d : Database) :
  ids_issued d -> ~ In (docs_sections_seq d + 1)%Z (map s_id (docs_sections d)).
Proof.
  unfold ids_issued. rewrite Forall_forall. intros H Hin.
  apply in_map_iff in Hin as (r & Hr & Hin). apply H in Hin. lia.
Qed.

Lemma section_insert_consistent (new : SectionRow) (d : Database) :
  s_id new = (docs_sections_seq d + 1)%Z ->
  in_lockstep d /\ ids_issued d ->
  let d' := docs_sections_ai new (section_insert new d) in
  in_lockstep d' /\ ids_issued d'.
Proof.
  intros Hid [[Hfts Hnd] Hiss]. simpl. repeat split; simpl.
  - now rewrite Hfts, map_app.
  - rewrite map_app. simpl. apply NoDup_app_remove_l with (l := []). simpl.
    apply Permutation_NoDup with (l := s_id new :: map s_id (docs_sections d)).
    + apply Permutation_cons_append.
    + constructor; [|exact Hnd]. rewrite Hid. now apply fresh_id_not_issued.
  - unfold ids_issued in *. simpl. apply Forall_app. split.
    + eapply Forall_impl; [|exact Hiss]. simpl. intros r Hr. lia.
    + repeat constructor. lia.
Qed.

(** The writes of [DELETE FROM docs_sections] over the rows [rs]. *)
Lemma delete_rows_applied (rs : list SectionRow) (d : Database) :
  fold_left (fun d w => w d)
    (flat_map (fun r => [section_delete r; docs_sections_ad r]) rs) d
  = {| docs_sections :=
         filter (fun r => negb (id_among (map s_id rs) (s_id r)))
           (docs_sections d);
       docs_sections_seq := docs_sections_seq d;
       docs_sections_fts :=
         filter (fun e => negb (id_among (map s_id rs) (fts_rowid e)))
           (docs_sections_fts d);
       components := components d;
       components_seq := components_seq d |}.
Proof.
  revert d. induction rs as [|r rs IH]; intros d; simpl.
  - destruct d as [ss sq fts cs cq]; simpl. f_equal.
    + symmetry. induction ss as [|x l IHl]; simpl; [reflexivity|].
      now rewrite IHl.
    + symmetry. induction fts as [|x l IHl]; simpl; [reflexivity|].
      now rewrite IHl.
  - rewrite IH. simpl. f_equal.
    + clear. induction (docs_sections d) as [|x l IHl]; simpl; [reflexivity|].
      destruct (s_id x =? s_id r)%Z; simpl; [exact IHl|].
      destruct (id_among (map s_id rs) (s_id x)); simpl;
        [exact IHl | now rewrite IHl].
    + clear. induction (docs_sections_fts d) as [|x l IHl]; simpl; [reflexivity|].
      destruct (fts_rowid x =? s_id r)%Z; simpl; [exact IHl|].
      destruct (id_among (map s_id rs) (fts_rowid x)); simpl;
        [exact IHl | now rewrite IHl].
Qed.

Lemma id_among_In (ids : list Z) (z : Z) : In z ids -> id_among ids z = true.
Proof.
  intros H. apply existsb_exists. exists z. split; [exact H | apply Z.eqb_refl].
Qed.

Lemma filter_none {A : Type} (f : A -> bool) (l : list A) :
  (forall x, In x l -> f x = false) -> filter f l = [].
Proof.
  induction l as [|x l IH]; simpl; intros H; [reflexivity|].
  rewrite (H x) by now left. apply IH. intros y Hy. apply H. now right.
Qed.

Lemma clear_db_applied (d : Database) :
  clear_db d =
  {| docs_sections := [];
     docs_sections_seq := docs_sections_seq d;
     docs_sections_fts :=
       filter (fun e => negb (id_among (map s_id (docs_sections d)) (fts_rowid e)))
         (docs_sections_fts d);
     components := [];
     components_seq := components_seq d |}.
Proof.
  unfold clear_db, delete_from_docs_sections.
  rewrite transaction_applies, fold_left_app, delete_rows_applied. simpl.
  unfold delete_from_components. simpl. f_equal.
  apply filter_none. intros r Hr.
  rewrite id_among_In; [reflexivity | now apply in_map].
Qed.

Lemma clear_db_index_empty (d : Database) :
  in_lockstep d -> docs_sections_fts (clear_db d) = [].
Proof.
  intros [Hfts _]. rewrite clear_db_applied. simpl. rewrite Hfts.
  apply filter_none. intros e He. apply in_map_iff in He as (r & <- & Hr).
  simpl. rewrite id_among_In; [reflexivity | now apply in_map].
Qed.

Lemma init_db_consistent : in_lockstep init_db /\ ids_issued init_db.
Proof. repeat split; simpl; constructor. Qed.

Lemma perform_consistent (c : call) (d : Database) :
  in_lockstep d /\ ids_issued d ->
  in_lockstep (perform c d) /\ ids_issued (perform c d).
Proof.
  intros Hd. destruct c as [slug title heading level content position url
                           | name category description doc_slug url | ]; simpl.
  - destruct (insert_section _ _ _ _ _ _ _ d) as [d'|] eqn:Hins; [|exact Hd].
    apply insert_section_returned in Hins. subst d'.
    now apply section_insert_consistent.
  - unfold insert_component. rewrite transaction_applies. simpl.
    destruct Hd as [[Hfts Hnd] Hiss]. now repeat split.
  - destruct Hd as [Hl Hiss]. split.
    + split.
      * rewrite clear_db_index_empty by exact Hl.
        now rewrite clear_db_applied.
      * rewrite clear_db_applied. simpl. constructor.
    + rewrite clear_db_applied. constructor.
Qed.

Lemma replay_consistent (h : list event) (d : Database) :
  in_lockstep d /\ ids_issued d ->
  in_lockstep (replay h d) /\ ids_issued (replay h d).
Proof.
  revert d. induction h as [|e h IH]; intros d Hd; simpl.
  - exact Hd.
  - apply IH. destruct e as [c | c k]; simpl.
    + now apply perform_consistent.
    + now rewrite interrupted_keeps.
Qed.

Lemma perform_commits_writes (c : call) (d : Database) :
  perform c d = transaction (writes_of c d) d.
Proof.
  destruct c as [slug title heading level content position url
                | name category description doc_slug url | ]; simpl.
  - unfold insert_section.
    destruct (fits_int64 level && fits_int64 position); reflexivity.
  - reflexivity.
  - reflexivity.
Qed.

(** C1.  Whatever the ingester has done, and wherever calls were cut off,
    the index entries are exactly the projections of the stored sections,
    one per section id.  An [insert_section] that returns has added one
    section under an id not in use and one index entry built from it; a
    [clear_db] leaves no section and no entry; every call takes effect as
    its writes committed together, and a call cut before its commit leaves
    the file unchanged. *)
Theorem search_index_in_lockstep (h : list event) :
  let d := replay h init_db in
  (docs_sections_fts d = map index_entry (docs_sections d)
   /\ NoDup (map s_id (docs_sections d))
   /\ NoDup (map fts_rowid (docs_sections_fts d)))
  /\ (forall slug title heading level content position url d',
        insert_section slug title heading level content position url d
        = Returned d' ->
        exists id,
          let new := {| s_id := id; s_slug := slug; s_title := title;
                        s_heading := heading; s_level := level;
                        s_content := content; s_position := position;
                        s_url := url |} in
          ~ In id (map s_id (docs_sections d))
          /\ docs_sections d' = docs_sections d ++ [new]
          /\ docs_sections_fts d' = docs_sections_fts d ++ [index_entry new])
  /\ (docs_sections (clear_db d) = [] /\ docs_sections_fts (clear_db d) = [])
  /\ (forall c, perform c d = transaction (writes_of c d) d)
  /\ (forall c k, interrupted k (writes_of c d) d = d).
Proof.
  intros d.
  destruct (replay_consistent h init_db init_db_consistent)
    as [[Hfts Hnd] Hiss]. fold d in Hfts, Hnd, Hiss.
  repeat split.
  - exact Hfts.
  - exact Hnd.
  - rewrite Hfts, map_map. simpl. exact Hnd.
  - intros slug title heading level content position url d' Hins.
    apply insert_section_returned in Hins. subst d'.
    exists (docs_sections_seq d + 1)%Z. simpl. repeat split.
    now apply fresh_id_not_issued.
  - now rewrite clear_db_applied.
  - apply clear_db_index_empty. now split.
  - intros c. apply perform_commits_writes.
  - intros c k. apply interrupted_keeps.
Qed.

(** ** Pages *)

Lemma select_page_rows_sorted (slug : string) (d : Database) :
  StronglySorted position_le (select_page_rows slug d).
Proof.
  unfold select_page_rows.
  apply StronglySorted_weaken with (R := fun a b => by_position a b = true).
  - intros a b Hab. now apply Z.leb_le.
  - apply order_by_strongly_sorted; unfold by_position.
    + intros a b Hab. apply Z.leb_le. apply Z.leb_gt in Hab. lia.
    + intros a b c Hab Hbc. apply Z.leb_le. apply Z.leb_le in Hab, Hbc. lia.
Qed.

Lemma select_page_rows_perm (slug : string) (d : Database) :
  Permutation (select_page_rows slug d)
    (filter (fun r => (s_slug r =? slug)%string) (docs_sections d)).
Proof. apply order_by_perm. Qed.

(** C2.  A slug that no stored section carries has no page.  For a slug
    with stored sections the page is made from all rows of the slug, each
    once, taken in non-decreasing position order: it carries the queried
    slug, the title and url of the first of them, whose position is the
    lowest, and one section per row, in that order, with the heading, level
    and content of the row. *)
Theorem get_page_sections_in_position_order (slug : string) (d : Database) :
  let stored :=
    filter (fun r => (s_slug r =? slug)%string) (docs_sections d) in
  ((forall r, In r (docs_sections d) -> s_slug r <> slug) ->
   get_page_sections slug d = None)
  /\ ((exists r, In r (docs_sections d) /\ s_slug r = slug) ->
      exists first rest page,
        get_page_sections slug d = Some page
        /\ Permutation (first :: rest) stored
        /\ StronglySorted position_le (first :: rest)
        /\ (forall r, In r stored -> (s_position first <= s_position r)%Z)
        /\ p_slug page = slug
        /\ p_title page = s_title first
        /\ p_url page = s_url first
        /\ map ds_heading (p_sections page) = map s_heading (first :: rest)
        /\ map ds_level (p_sections page) = map s_level (first :: rest)
        /\ map ds_content (p_sections page) = map s_content (first :: rest)).
Proof.
  intros stored. split.
  - intros Hnone. unfold get_page_sections, select_page_rows.
    fold stored. replace stored with (@nil SectionRow); [reflexivity|].
    symmetry. apply filter_none. intros r Hr.
    apply String.eqb_neq. now apply Hnone.
  - intros (r & Hr & Hslug).
    pose proof (select_page_rows_perm slug d) as Hperm. fold stored in Hperm.
    pose proof (select_page_rows_sorted slug d) as Hsorted.
    unfold get_page_sections.
    destruct (select_page_rows slug d) as [|first rest] eqn:Hrows.
    + assert (Hin : In r stored).
      { apply filter_In. split; [exact Hr | now apply String.eqb_eq]. }
      apply (Permutation_in _ (Permutation_sym Hperm)) in Hin. destruct Hin.
    + exists first, rest. eexists. split; [reflexivity|].
      cbn [p_slug p_title p_url p_sections].
      split; [exact Hperm|]. split; [exact Hsorted|]. split; [|split].
      * intros x Hx.
        apply (Permutation_in _ (Permutation_sym Hperm)) in Hx.
        inversion Hsorted as [|? ? _ Hall]; subst.
        destruct Hx as [<- | Hx]; [lia|].
        rewrite Forall_forall in Hall. now apply Hall.
      * assert (Hfirst : In first stored).
        { apply (Permutation_in _ Hperm). now left. }
        apply filter_In in Hfirst as [_ Hfirst].
        now apply String.eqb_eq in Hfirst.
      * repeat split; rewrite map_map; reflexivity.
Qed.

(** ** Component lookup *)

(** The two spellings of a plain component name are looked up alike. *)
Lemma get_component_by_name_button (d : Database) :
  get_component_by_name "button" d = get_component_by_name "rx.button" d.
Proof. reflexivity. Qed.

Lemma replace_without_rx (s : string) :
  has_rx s = false -> Py.replace "rx." EmptyString s = s.
Proof.
  unfold Py.replace. induction s as [|c s IH]; [reflexivity|].
  intros H. cbn [has_rx] in H. apply orb_false_iff in H as [Hhere Hlater].
  unfold Py.startswith in Hhere. cbn [Py.replace_from]. rewrite Hhere.
  now rewrite IH.
Qed.

Lemma startswith_rx (s : string) :
  Py.startswith "rx." s = true -> exists rest, s = ("rx." ++ rest)%string.
Proof.
  unfold Py.startswith.
  destruct s as [|a [|b [|c rest]]]; cbn [String.prefix];
    repeat match goal with
           | |- context [ascii_dec ?x ?y] => destruct (ascii_dec x y)
           end; try discriminate.
  subst. intros _. now exists rest.
Qed.

Lemma substring_all (s : string) : String.substring 0 (String.length s) s = s.
Proof. induction s as [|c s IH]; simpl; [reflexivity | now rewrite IH]. Qed.

(** Where the input holds [rx.] at its start at most, the second attempt
    looks up the input without its prefix. *)
Lemma replace_strips_prefix (name : string) :
  has_rx (strip_rx_prefix name) = false ->
  Py.replace "rx." EmptyString name = strip_rx_prefix name.
Proof.
  unfold strip_rx_prefix.
  destruct (Py.startswith "rx." name) eqn:Hstart.
  - apply startswith_rx in Hstart as (rest & ->).
    cbn [append String.length Nat.sub String.substring].
    rewrite Nat.sub_0_r, substring_all. intros Hrest.
    unfold Py.replace. cbn.
    assert (Hp : String.prefix EmptyString rest = true) by now destruct rest.
    rewrite Hp. now apply replace_without_rx.
  - apply replace_without_rx.
Qed.

Lemma get_component_by_name_as_specified (name : string) (d : Database) :
  has_rx (strip_rx_prefix name) = false ->
  get_component_by_name name d = getComponent_spec name d.
Proof.
  intros H. unfold get_component_by_name, getComponent_spec.
  rewrite replace_strips_prefix by exact H.
  now destruct (fetchone (select_component (search_name name) d)).
Qed.

(** C3.  The second attempt of the lookup removes every [rx.] of the input,
    not only a leading one: [brx.ox] has no [rx.] prefix, neither
    [rx.brx.ox] nor [brx.ox] is stored, and still the lookup answers with
    the component [box], where the lookup of the specification finds
    nothing. *)
Theorem get_component_by_name_removes_inner_rx :
  Py.startswith "rx." "brx.ox" = false
  /\ select_component "rx.brx.ox" box_db = []
  /\ select_component "brx.ox" box_db = []
  /\ getComponent_spec "brx.ox" box_db = None
  /\ get_component_by_name "brx.ox" box_db =
     Some {| ci_name := "box"; ci_category := None;
             ci_description := "A bare name";
             ci_doc_slug := None; ci_url := None |}.
Proof. repeat split; reflexivity. Qed.

(** ** Search: the query text *)

Lemma lstrip_all_space (s : string) :
  all_space s = true -> Py.lstrip s = EmptyString.
Proof.
  induction s as [|c s IH]; simpl; [reflexivity|].
  intros H. apply andb_true_iff in H as [Hc Hs]. rewrite Hc. now apply IH.
Qed.

Lemma terms_of_blank_query (query : string) :
  all_space query = true -> Py.split (Py.strip query) = [].
Proof.
  intros H. unfold Py.strip. now rewrite lstrip_all_space.
Qed.

(** C6.  A query that is empty or made of white space only is answered with
    the empty list, whatever the limit and the state of the store. *)
Theorem search_sections_blank_query
  (E : Fts5Engine) (query : string) (limit : Z) (d : Database) :
  all_space query = true ->
  search_sections E query limit d = Returned [].
Proof.
  intros H. unfold search_sections. now rewrite terms_of_blank_query.
Qed.

Lemma search_sections_blank_query_witness :
  all_space "   " = true
  /\ search_sections phrase_engine "   " 10 box_db = Returned [].
Proof.
  split; [reflexivity |].
  apply (search_sections_blank_query phrase_engine "   " 10 box_db).
  reflexivity.
Defined.

(** C5.  A quote character inside a term is passed on as it is.  The query
    made of one double quote becomes three double quotes, a string the
    engine finds unterminated, and the search raises; the query
    [x" OR "y] becomes a text in which [OR] stands outside the strings and
    is read as the operator. *)
Theorem search_sections_quote_not_escaped (E : Fts5Engine) (d : Database) :
  escaped_query (Py.split (Py.strip quote_mark))
  = (quote_mark ++ quote_mark ++ quote_mark)%string
  /\ search_sections E quote_mark 10 d
     = Raised (OperationalError "unterminated string")
  /\ fts5_tokens
       (escaped_query
          (Py.split (Py.strip ("x" ++ quote_mark ++ " OR " ++ quote_mark ++ "y"))))
     = inr [FTS5_STRING ("x" ++ quote_mark ++ " ");
            FTS5_OR;
            FTS5_STRING (" " ++ quote_mark ++ "y")]%string.
Proof. repeat split; reflexivity. Qed.

(** ** Components *)

(** Selecting rows keeps their names distinct. *)
Lemma filter_names_distinct (keep : ComponentRow -> bool)
  (rows : list ComponentRow) :
  NoDup (map c_name rows) -> NoDup (map c_name (filter keep rows)).
Proof.
  induction rows as [|x rows IH]; simpl; intros H; [constructor|].
  inversion H as [|? ? Hnotin Hnd]; subst.
  destruct (keep x); simpl; [constructor|]; auto.
  intros Hin. apply Hnotin. apply in_map_iff in Hin as (y & Hy & Hin).
  apply filter_In in Hin as [Hin _]. rewrite <- Hy. now apply in_map.
Qed.

Lemma insert_component_applied name category description doc_slug url d :
  insert_component name category description doc_slug url d =
  {| docs_sections := docs_sections d;
     docs_sections_seq := docs_sections_seq d;
     docs_sections_fts := docs_sections_fts d;
     components :=
       filter (fun c => negb (c_name c =? name)%string) (components d)
       ++ [{| c_id := components_seq d + 1; c_name := name;
              c_category := category; c_description := description;
              c_doc_slug := doc_slug; c_url := url |}%Z];
     components_seq := components_seq d + 1 |}.
Proof. unfold insert_component. now rewrite transaction_applies. Qed.

Lemma insert_component_names_unique name category description doc_slug url d :
  names_unique d ->
  names_unique (insert_component name category description doc_slug url d).
Proof.
  unfold names_unique. intros H. rewrite insert_component_applied. simpl.
  rewrite map_app. simpl.
  apply Permutation_NoDup with
    (l := name :: map c_name
            (filter (fun c => negb (c_name c =? name)%string) (components d))).
  - apply Permutation_cons_append.
  - constructor; [|now apply filter_names_distinct].
    intros Hin. apply in_map_iff in Hin as (c & Hc & Hin).
    apply filter_In in Hin as [_ Hne]. apply negb_true_iff in Hne.
    apply String.eqb_neq in Hne. contradiction.
Qed.

Lemma perform_names_unique (c : call) (d : Database) :
  names_unique d -> names_unique (perform c d).
Proof.
  intros Hd. destruct c as [slug title heading level content position url
                           | name category description doc_slug url | ]; simpl.
  - destruct (insert_section _ _ _ _ _ _ _ d) as [d'|] eqn:Hins; [|exact Hd].
    apply insert_section_returned in Hins. subst d'. exact Hd.
  - now apply insert_component_names_unique.
  - unfold names_unique. rewrite clear_db_applied. constructor.
Qed.

Lemma replay_names_unique (h : list event) (d : Database) :
  names_unique d -> names_unique (replay h d).
Proof.
  revert d. induction h as [|e h IH]; intros d Hd; simpl; [exact Hd|].
  apply IH. destruct e as [c | c k]; simpl.
  - now apply perform_names_unique.
  - now rewrite interrupted_keeps.
Qed.

(** What [list_all_components] returns: the selected rows, sorted on name. *)
Lemma list_all_components_None (d : Database) :
  list_all_components None d
  = map component_info (order_by by_name (components d)).
Proof. reflexivity. Qed.

Lemma list_all_components_In (d : Database) (c : ComponentInfo) :
  In c (list_all_components None d)
  <-> exists row, In row (components d) /\ component_info row = c.
Proof.
  rewrite list_all_components_None, in_map_iff.
  split; intros (row & Hrow & Hin); exists row.
  - split; [now apply order_by_In in Hin | exact Hrow].
  - split; [exact Hin | now apply order_by_In].
Qed.

Lemma list_all_components_names (category : option string) (d : Database) :
  names_unique d -> NoDup (map ci_name (list_all_components category d)).
Proof.
  unfold names_unique, list_all_components. intros H.
  assert (Hall : NoDup (map ci_name
                          (map component_info (order_by by_name (components d))))).
  { rewrite map_map. simpl.
    eapply Permutation_NoDup; [|exact H].
    symmetry. apply Permutation_map, order_by_perm. }
  destruct category as [k|]; [|exact Hall].
  destruct (Py.truthy k); [|exact Hall].
  rewrite map_map. simpl.
  eapply Permutation_NoDup.
  - symmetry. apply Permutation_map, order_by_perm.
  - now apply filter_names_distinct.
Qed.

Lemma displaced_length (name : string) (l : list ComponentRow) :
  NoDup (map c_name l) ->
  (exists c, In c l /\ c_name c = name) ->
  S (List.length (filter (fun c => negb (c_name c =? name)%string) l))
  = List.length l.
Proof.
  induction l as [|x l IH]; simpl; intros Hnd (c & Hin & Hname).
  - destruct Hin.
  - inversion Hnd as [|? ? Hnotin Hnd']; subst.
    destruct (String.eqb_spec (c_name x) (c_name c)) as [Heq | Hne]; simpl.
    + f_equal. f_equal. symmetry.
      rewrite <- (filter_ext_in (fun _ => true)).
      * clear. induction l as [|y l IHl]; simpl; [reflexivity | now f_equal].
      * intros y Hy. symmetry. apply negb_true_iff, String.eqb_neq.
        intros Heq'. apply Hnotin. rewrite Heq, <- Heq'. now apply in_map.
    + f_equal. apply IH; [exact Hnd'|]. exists c. split; [|reflexivity].
      destruct Hin as [-> | Hin]; [contradiction | exact Hin].
Qed.

(** C7.  After any history no two stored components share a name, and no
    listing shows a name twice.  An upsert leaves exactly one record under
    its name, holding the values just given; records under other names are
    as before; and when the name was already stored the table has as many
    rows as before. *)
Theorem component_name_is_key (h : list event) :
  let d := replay h init_db in
  (forall category, NoDup (map ci_name (list_all_components category d)))
  /\ (forall name category description doc_slug url,
        let d' := insert_component name category description doc_slug url d in
        let new := {| ci_name := name; ci_category := category;
                      ci_description := description;
                      ci_doc_slug := doc_slug; ci_url := url |} in
        (forall filter_category,
            NoDup (map ci_name (list_all_components filter_category d')))
        /\ In new (list_all_components None d')
        /\ (forall c, In c (list_all_components None d') ->
                      ci_name c = name -> c = new)
        /\ (forall c, ci_name c <> name ->
                      (In c (list_all_components None d')
                       <-> In c (list_all_components None d)))
        /\ ((exists c, In c (components d) /\ c_name c = name) ->
            List.length (components d') = List.length (components d))).
Proof.
  intros d.
  assert (Hd : names_unique d).
  { apply replay_names_unique. constructor. }
  split; [intros category; now apply list_all_components_names|].
  intros name category description doc_slug url d' new.
  assert (Hd' : names_unique d') by now apply insert_component_names_unique.
  assert (Hcomps : components d' =
                   filter (fun c => negb (c_name c =? name)%string) (components d)
                   ++ [{| c_id := components_seq d + 1; c_name := name;
                          c_category := category; c_description := description;
                          c_doc_slug := doc_slug; c_url := url |}%Z]).
  { unfold d'. now rewrite insert_component_applied. }
  split; [|split; [|split; [|split]]].
  - intros fc. now apply list_all_components_names.
  - apply list_all_components_In. eexists. split.
    + rewrite Hcomps. apply in_or_app. right. left. reflexivity.
    + reflexivity.
  - intros c Hin Hname. apply list_all_components_In in Hin as (row & Hrow & <-).
    rewrite Hcomps in Hrow. apply in_app_or in Hrow as [Hrow | [<- | []]].
    + apply filter_In in Hrow as [_ Hne]. apply negb_true_iff in Hne.
      apply String.eqb_neq in Hne. contradiction.
    + reflexivity.
  - intros c Hother. split; intros Hin;
      apply list_all_components_In in Hin as (row & Hrow & <-);
      apply list_all_components_In; exists row; (split; [|reflexivity]).
    + rewrite Hcomps in Hrow. apply in_app_or in Hrow as [Hrow | [<- | []]].
      * now apply filter_In in Hrow.
      * simpl in Hother. contradiction.
    + rewrite Hcomps. apply in_or_app. left. apply filter_In.
      split; [exact Hrow|]. apply negb_true_iff, String.eqb_neq. exact Hother.
  - intros Hex. rewrite Hcomps, length_app. simpl.
    rewrite Nat.add_1_r. now apply displaced_length.
Qed.

Lemma Sorted_map {A B : Type} (f : A -> B) (R : B -> B -> Prop) (l : list A) :
  Sorted (fun a b => R (f a) (f b)) l -> Sorted R (map f l).
Proof.
  induction 1 as [|a l _ IH Hhd]; simpl; constructor.
  - exact IH.
  - destruct Hhd; simpl; now constructor.
Qed.


(** ** Statistics and clearing *)

Lemma distinct_In (l : list string) (s : string) :
  In s (distinct l) <-> In s l.
Proof.
  induction l as [|x l IH]; simpl; [tauto|].
  rewrite filter_In, IH, negb_true_iff, String.eqb_neq.
  destruct (String.string_dec x s) as [-> | Hne]; [tauto|].
  split; [tauto|]. intros [H | H]; [contradiction|].
  right. split; [exact H | congruence].
Qed.

Lemma distinct_NoDup (l : list string) : NoDup (distinct l).
Proof.
  induction l as [|x l IH]; simpl; constructor.
  - rewrite filter_In, negb_true_iff, String.eqb_neq. tauto.
  - now apply NoDup_filter.
Qed.

(** C8.  After [clear_db] the three counts are zero and no page and no
    component is found, whatever was stored.  In any state [sections]
    counts the section rows and [pages] counts the slugs that occur among
    them, each slug once. *)
Theorem clear_db_leaves_nothing (d : Database) :
  get_stats (clear_db d)
  = {| st_sections := 0; st_pages := 0; st_components := 0 |}
  /\ (forall slug, get_page_sections slug (clear_db d) = None)
  /\ (forall name, get_component_by_name name (clear_db d) = None)
  /\ st_sections (get_stats d) = List.length (docs_sections d)
  /\ (exists slugs,
        NoDup slugs
        /\ (forall s, In s slugs
                      <-> exists r, In r (docs_sections d) /\ s_slug r = s)
        /\ st_pages (get_stats d) = List.length slugs).
Proof.
  rewrite clear_db_applied. repeat split.
  exists (distinct (map s_slug (docs_sections d))). repeat split.
  - apply distinct_NoDup.
  - intros Hin. apply distinct_In, in_map_iff in Hin as (r & Hr & Hin).
    now exists r.
  - intros (r & Hin & Hr). apply distinct_In, in_map_iff. now exists r.
Qed.

(** Two sections of one page count as one page. *)
Example get_stats_box_db :
  get_stats box_db
  = {| st_sections := 2; st_pages := 1; st_components := 2 |}.
Proof. reflexivity. Qed.

(** ** Search: the rows and their snippets *)

Lemma string_length_app (s t : string) :
  String.length (s ++ t) = String.length s + String.length t.
Proof. induction s as [|c s IH]; simpl; [reflexivity | now rewrite IH]. Qed.

Lemma slice_to_prefix (n : nat) (s : string) :
  n <= String.length s ->
  exists rest, s = (Py.slice_to n s ++ rest)%string
               /\ String.length (Py.slice_to n s) = n.
Proof.
  unfold Py.slice_to. revert s. induction n as [|n IH]; intros s Hn.
  - exists s. destruct s; simpl; split; reflexivity.
  - destruct s as [|c s]; simpl in Hn; [lia|].
    destruct (IH s) as (rest & Hrest & Hlen); [lia|].
    exists rest. simpl. split; [now rewrite <- Hrest | now rewrite Hlen].
Qed.

Lemma snippet_short (content : string) :
  String.length content <= 200 -> snippet content = content.
Proof.
  intros H. unfold snippet.
  destruct (Nat.ltb_spec 200 (String.length content)); [lia | reflexivity].
Qed.

Lemma snippet_long (content : string) :
  200 < String.length content ->
  exists pre rest,
    content = (pre ++ rest)%string
    /\ String.length pre = 200
    /\ snippet content = (pre ++ "...")%string.
Proof.
  intros H. unfold snippet.
  destruct (Nat.ltb_spec 200 (String.length content)); [|lia].
  destruct (slice_to_prefix 200 content) as (rest & Hrest & Hlen); [lia|].
  exists (Py.slice_to 200 content), rest. now repeat split.
Qed.

Lemma snippet_length (content : string) :
  String.length (snippet content) <= 203.
Proof.
  destruct (Nat.le_gt_cases (String.length content) 200) as [H | H].
  - rewrite snippet_short by exact H. lia.
  - destruct (snippet_long content H) as (pre & rest & _ & Hlen & ->).
    rewrite string_length_app, Hlen. simpl. lia.
Qed.

Lemma sql_limit_In {A : Type} (n : Z) (rows : list A) (x : A) :
  In x (sql_limit n rows) -> In x rows.
Proof.
  unfold sql_limit. destruct (n <? 0)%Z; [trivial|].
  revert rows. induction (Z.to_nat n) as [|k IH]; intros [|y rows]; simpl;
    try tauto.
  intros [-> | H]; [now left | right; now apply IH].
Qed.

(** Every row of the search SELECT carries the columns of a stored
    section. *)
Lemma select_search_rows_In E (expr : fts5_expr E) limit d row :
  In row (select_search_rows E expr limit d) ->
  exists s, In s (docs_sections d)
            /\ sr_slug row = s_slug s /\ sr_title row = s_title s
            /\ sr_content row = s_content s /\ sr_url row = s_url s.
Proof.
  unfold select_search_rows, matching_rows. intros H.
  apply sql_limit_In, order_by_In, in_flat_map in H as (e & _ & H).
  destruct (fts5_match E expr e); [|destruct H].
  apply in_map_iff in H as (s & <- & Hs). apply filter_In in Hs as [Hs _].
  exists s. simpl. now repeat split.
Qed.

(** The cases of [search_sections] that return. *)
Lemma search_sections_returned E query limit d rs :
  search_sections E query limit d = Returned rs ->
  rs = []
  \/ exists expr, rs = map doc_result (select_search_rows E expr limit d).
Proof.
  unfold search_sections.
  destruct (Py.split (Py.strip query)) as [|t ts].
  - intros H. injection H as <-. now left.
  - destruct (fits_int64 limit); [|discriminate].
    destruct (fts5_tokens _) as [msg | tokens]; [discriminate|].
    destruct (fts5_parse E tokens) as [expr|]; [|discriminate].
    intros H. injection H as <-. right. now exists expr.
Qed.

(** C9.  Each search result stands for a stored section; its snippet is the
    content of that section when the content has at most 200 characters,
    and otherwise the first 200 characters of the content followed by three
    dots, cut wherever the 200th character falls.  No snippet is longer
    than 203 characters. *)
Theorem search_sections_snippet
  (E : Fts5Engine) (query : string) (limit : Z) (d : Database)
  (rs : list DocResult) (r : DocResult) :
  search_sections E query limit d = Returned rs ->
  In r rs ->
  exists s,
    In s (docs_sections d)
    /\ r_slug r = s_slug s /\ r_title r = s_title s /\ r_url r = s_url s
    /\ (String.length (s_content s) <= 200 -> r_snippet r = s_content s)
    /\ (200 < String.length (s_content s) ->
        exists pre rest,
          s_content s = (pre ++ rest)%string
          /\ String.length pre = 200
          /\ r_snippet r = (pre ++ "...")%string)
    /\ String.length (r_snippet r) <= 203.
Proof.
  intros Hsearch Hin.
  apply search_sections_returned in Hsearch as [-> | (expr & ->)];
    [destruct Hin|].
  apply in_map_iff in Hin as (row & <- & Hrow).
  apply select_search_rows_In in Hrow as (s & Hs & Hslug & Htitle & Hc & Hurl).
  exists s. simpl. rewrite Hc. repeat split; try assumption.
  - apply snippet_short.
  - apply snippet_long.
  - apply snippet_length.
Qed.

Lemma search_sections_snippet_witness :
  search_sections phrase_engine "layout" 10 long_db = Returned long_hits
  /\ In long_hit long_hits
  /\ exists s,
      In s (docs_sections long_db)
      /\ r_slug long_hit = s_slug s /\ r_title long_hit = s_title s
      /\ r_url long_hit = s_url s
      /\ (String.length (s_content s) <= 200 ->
          r_snippet long_hit = s_content s)
      /\ (200 < String.length (s_content s) ->
          exists pre rest,
            s_content s = (pre ++ rest)%string
            /\ String.length pre = 200
            /\ r_snippet long_hit = (pre ++ "...")%string)
      /\ String.length (r_snippet long_hit) <= 203.
Proof.
  split; [reflexivity|]. split; [right; right; left; reflexivity|].
  apply (search_sections_snippet phrase_engine "layout" 10 long_db
           long_hits long_hit).
  - reflexivity.
  - right. right. left. reflexivity.
Defined.

(** The snippet of a long content: 200 characters and the three dots. *)
Example snippet_long_content :
  String.length long_content = 279
  /\ String.length (snippet long_content) = 203.
Proof. split; reflexivity. Qed.

(** ** Search: rank order and limit *)



Lemma sql_limit_length {A : Type} (n : Z) (l : list A) :
  (0 <= n)%Z -> (Z.of_nat (List.length (sql_limit n l)) <= n)%Z.
Proof.
  intros Hn. unfold sql_limit.
  destruct (Z.ltb_spec n 0); [lia|].
  rewrite length_firstn. lia.
Qed.













(** The ranks of the small engine are never positive. *)
Lemma phrase_engine_nonpositive : bm25_nonpositive phrase_engine.
Proof.
  intros index expr entry. simpl. unfold Qle. simpl. lia.
Qed.

(** ** Search: what the quoting achieves

    Terms without a double quote reach the engine as strings and nothing
    else, whatever other characters they hold. *)

Lemma string_app_assoc (s t u : string) :
  ((s ++ t) ++ u = s ++ (t ++ u))%string.
Proof. induction s as [|c s IH]; simpl; [reflexivity | now rewrite IH]. Qed.

Lemma emit_nothing (r : string + list fts5_token) : emit [] r = r.
Proof. now destruct r. Qed.

Lemma lex_inside_quotes (t acc rest : string) :
  plain t = true ->
  fts5_lex (Quoted acc) (t ++ String dquote rest)
  = fts5_lex (QuoteSeen (acc ++ t)) rest.
Proof.
  revert acc. induction t as [|c t IH]; intros acc Hplain; simpl.
  - rewrite emit_nothing. f_equal. f_equal.
    induction acc as [|a acc IHa]; simpl; [reflexivity | now rewrite <- IHa].
  - simpl in Hplain. apply andb_true_iff in Hplain as [Hc Ht].
    unfold plain_char in Hc. apply andb_true_iff in Hc as [Hq Hnul].
    apply negb_true_iff in Hq, Hnul. rewrite Hq, Hnul, emit_nothing.
    rewrite IH by exact Ht. unfold snoc. now rewrite string_app_assoc.
Qed.

Lemma lex_quoted_term (t rest : string) :
  plain t = true ->
  fts5_lex Between (quote_term t ++ rest) = fts5_lex (QuoteSeen t) rest.
Proof.
  intros Hplain. unfold quote_term. simpl.
  rewrite string_app_assoc. simpl. rewrite emit_nothing.
  now rewrite lex_inside_quotes.
Qed.

Lemma string_app_empty (s : string) : (s ++ EmptyString)%string = s.
Proof. induction s as [|c s IH]; simpl; [reflexivity | now rewrite IH]. Qed.

Lemma lex_after_term (t s : string) :
  fts5_lex (QuoteSeen t) (" " ++ s)
  = emit [FTS5_STRING t] (fts5_lex Between s).
Proof. reflexivity. Qed.

Lemma escaped_query_tokens (terms : list string) :
  Forall (fun t => plain t = true) terms ->
  fts5_tokens (escaped_query terms) = inr (map FTS5_STRING terms).
Proof.
  unfold fts5_tokens, escaped_query, Py.join.
  induction 1 as [|t ts Ht _ IH]; [reflexivity|].
  destruct ts as [|t' ts].
  - change (String.concat " " (map quote_term [t])) with (quote_term t).
    rewrite <- (string_app_empty (quote_term t)).
    now rewrite lex_quoted_term.
  - change (String.concat " " (map quote_term (t :: t' :: ts)))
      with (quote_term t ++ " "
            ++ String.concat " " (map quote_term (t' :: ts)))%string.
    rewrite lex_quoted_term by exact Ht.
    now rewrite lex_after_term, IH.
Qed.

(** The comment of the source, on a query of the documentation: dots, colons
    and dashes inside the quotes are text. *)
Example escaped_query_rx_button :
  fts5_tokens (escaped_query (Py.split (Py.strip " rx.button on-click: ")))
  = inr [FTS5_STRING "rx.button"; FTS5_STRING "on-click:"]
  /\ fts5_tokens "rx.button"
     = inl ("fts5: syntax error near " ++ quote_mark ++ "." ++ quote_mark)%string.
Proof. split; reflexivity. Qed.

(** * Further properties of the store *)

(** ** Inserting a section and reading its page *)

Lemma filter_app_one {A : Type} (f : A -> bool) (l : list A) (x : A) :
  filter f (l ++ [x]) = filter f l ++ (if f x then [x] else []).
Proof. rewrite filter_app. reflexivity. Qed.

(** X1.  A section that [insert_section] has stored is on the page of its
    slug: the page exists, holds the new heading, level and content, and has
    one section more than there were rows of that slug.  The pages of other
    slugs are as before. *)
Theorem insert_section_then_get_page
  (slug title heading : string) (level : Z) (content : string)
  (position : Z) (url : string) (d d' : Database) :
  insert_section slug title heading level content position url d
  = Returned d' ->
  (exists page,
      get_page_sections slug d' = Some page
      /\ p_slug page = slug
      /\ In {| ds_heading := heading; ds_level := level;
               ds_content := content |} (p_sections page)
      /\ List.length (p_sections page)
         = S (List.length
                (filter (fun r => (s_slug r =? slug)%string)
                   (docs_sections d))))
  /\ (forall other, other <> slug ->
        get_page_sections other d' = get_page_sections other d).
Proof.
  intros Hins. apply insert_section_returned in Hins. subst d'.
  set (new := {| s_id := (docs_sections_seq d + 1)%Z; s_slug := slug;
                 s_title := title; s_heading := heading; s_level := level;
                 s_content := content; s_position := position;
                 s_url := url |}).
  split.
  - unfold get_page_sections.
    pose proof (select_page_rows_perm slug (docs_sections_ai new (section_insert new d)))
      as Hperm.
    cbn [docs_sections docs_sections_ai section_insert] in Hperm.
    rewrite filter_app_one in Hperm. cbn [s_slug new] in Hperm.
    rewrite String.eqb_refl in Hperm.
    destruct (select_page_rows slug _) as [|first rest] eqn:Hrows.
    + apply Permutation_nil in Hperm. now destruct (filter _ (docs_sections d)).
    + eexists. split; [reflexivity|]. cbn [p_slug p_sections]. repeat split.
      * assert (Hin : In first (filter (fun r => (s_slug r =? slug)%string)
                                  (docs_sections d) ++ [new])).
        { apply (Permutation_in _ Hperm). now left. }
        apply in_app_or in Hin as [Hin | [<- | []]]; [|reflexivity].
        apply filter_In in Hin as [_ Hin]. now apply String.eqb_eq.
      * change {| ds_heading := heading; ds_level := level;
                  ds_content := content |} with (doc_section new).
        apply in_map. apply (Permutation_in _ (Permutation_sym Hperm)).
        apply in_or_app. right. now left.
      * rewrite length_map, (Permutation_length Hperm), length_app. simpl.
        apply Nat.add_1_r.
  - intros other Hother. unfold get_page_sections, select_page_rows.
    cbn [docs_sections docs_sections_ai section_insert].
    rewrite filter_app_one. cbn [s_slug new].
    apply String.eqb_neq in Hother. rewrite String.eqb_sym in Hother.
    rewrite Hother, app_nil_r. reflexivity.
Qed.

Lemma insert_section_then_get_page_witness :
  insert_section "guide" "Guide" "Intro" 1 "first words" 0 "u" init_db
  = Returned guide_db
  /\ (exists page,
        get_page_sections "guide" guide_db = Some page
        /\ p_slug page = "guide"
        /\ In {| ds_heading := "Intro"; ds_level := 1;
                 ds_content := "first words" |} (p_sections page)
        /\ List.length (p_sections page)
           = S (List.length
                  (filter (fun r => (s_slug r =? "guide")%string)
                     (docs_sections init_db))))
  /\ (forall other, other <> "guide" ->
        get_page_sections other guide_db = get_page_sections other init_db).
Proof.
  split; [reflexivity|].
  apply (insert_section_then_get_page "guide" "Guide" "Intro" 1
           "first words" 0 "u" init_db guide_db).
  reflexivity.
Defined.

(** ** Storing a component and looking it up *)

Lemma startswith_rx_app (s : string) : Py.startswith "rx." ("rx." ++ s) = true.
Proof. unfold Py.startswith. cbn. now destruct s. Qed.

Lemma select_component_In (name : string) (d : Database) (c : ComponentRow) :
  In c (select_component name d) <-> In c (components d) /\ c_name c = name.
Proof.
  unfold select_component. rewrite filter_In, String.eqb_eq. reflexivity.
Qed.

(** The row of an upserted name is the only one selected under it. *)
Lemma select_component_inserted name category description doc_slug url d :
  select_component name
    (insert_component name category description doc_slug url d)
  = [{| c_id := components_seq d + 1; c_name := name;
        c_category := category; c_description := description;
        c_doc_slug := doc_slug; c_url := url |}%Z].
Proof.
  unfold select_component. rewrite insert_component_applied.
  cbn [components]. rewrite filter_app_one. cbn [c_name].
  rewrite String.eqb_refl, filter_none; [reflexivity|].
  intros c Hc. apply filter_In in Hc as [_ Hc].
  now apply negb_true_iff in Hc.
Qed.

(** Under another name the selection is what it was. *)
Lemma select_component_other name other category description doc_slug url d :
  other <> name ->
  select_component other
    (insert_component name category description doc_slug url d)
  = select_component other d.
Proof.
  intros Hne. unfold select_component. rewrite insert_component_applied.
  cbn [components]. rewrite filter_app_one. cbn [c_name].
  apply String.eqb_neq in Hne. rewrite String.eqb_sym in Hne.
  rewrite Hne, app_nil_r.
  induction (components d) as [|c l IH]; [reflexivity|]. cbn [filter].
  destruct (String.eqb_spec (c_name c) name) as [-> | Hc]; cbn [negb filter].
  - rewrite Hne. exact IH.
  - now rewrite IH.
Qed.

(** X2.  A component stored under a name of the form [rx.] + bare is found
    under that name, and under the bare name too unless the bare name itself
    starts with [rx.]; both lookups give the values just stored. *)
Theorem insert_component_then_lookup
  (bare : string) (category : option string) (description : string)
  (doc_slug url : option string) (d : Database) :
  let name := ("rx." ++ bare)%string in
  let d' := insert_component name category description doc_slug url d in
  let stored := {| ci_name := name; ci_category := category;
                   ci_description := description;
                   ci_doc_slug := doc_slug; ci_url := url |} in
  get_component_by_name name d' = Some stored
  /\ (Py.startswith "rx." bare = false ->
      get_component_by_name bare d' = Some stored).
Proof.
  intros name d' stored. subst name d' stored. split.
  - unfold get_component_by_name, search_name.
    rewrite startswith_rx_app, select_component_inserted. reflexivity.
  - intros Hbare. unfold get_component_by_name, search_name.
    rewrite Hbare, select_component_inserted. reflexivity.
Qed.

Lemma rx_name_differs (s : string) : ("rx." ++ s)%string <> s.
Proof.
  intros H. apply (f_equal String.length) in H.
  rewrite string_length_app in H. simpl in H. lia.
Qed.

(** X3.  A component stored under a name in which [rx.] does not occur is
    found under that name as long as no component is stored under the name
    with [rx.] in front. *)
Theorem insert_component_bare_then_lookup
  (name : string) (category : option string) (description : string)
  (doc_slug url : option string) (d : Database) :
  has_rx name = false ->
  select_component ("rx." ++ name) d = [] ->
  get_component_by_name name
    (insert_component name category description doc_slug url d)
  = Some {| ci_name := name; ci_category := category;
            ci_description := description;
            ci_doc_slug := doc_slug; ci_url := url |}.
Proof.
  intros Hrx Hnone. unfold get_component_by_name, search_name.
  assert (Hstart : Py.startswith "rx." name = false).
  { destruct name as [|c s]; [reflexivity|].
    cbn [has_rx] in Hrx. now apply orb_false_iff in Hrx. }
  rewrite Hstart.
  rewrite select_component_other by apply rx_name_differs.
  rewrite Hnone. cbn [fetchone].
  rewrite replace_without_rx by exact Hrx.
  now rewrite select_component_inserted.
Qed.

Lemma insert_component_bare_then_lookup_witness :
  has_rx "spacer" = false
  /\ select_component "rx.spacer" box_db = []
  /\ get_component_by_name "spacer"
       (insert_component "spacer" None "A gap" None None box_db)
     = Some {| ci_name := "spacer"; ci_category := None;
               ci_description := "A gap";
               ci_doc_slug := None; ci_url := None |}.
Proof.
  split; [reflexivity|]. split; [reflexivity|].
  apply (insert_component_bare_then_lookup "spacer" None "A gap" None None
           box_db); reflexivity.
Defined.

(** X4.  The name with [rx.] in front wins: when a component is stored under
    [rx.] + name, a lookup of a name that does not start with [rx.] answers
    with that component, whether or not one is stored under the name
    itself. *)
Theorem get_component_by_name_prefers_rx
  (name : string) (d : Database) (c : ComponentRow) :
  Py.startswith "rx." name = false ->
  In c (components d) ->
  c_name c = ("rx." ++ name)%string ->
  exists found,
    get_component_by_name name d = Some found
    /\ ci_name found = ("rx." ++ name)%string.
Proof.
  intros Hstart Hin Hname. unfold get_component_by_name, search_name.
  rewrite Hstart.
  destruct (select_component ("rx." ++ name) d) as [|first rest] eqn:Hsel.
  - assert (Hc : In c (select_component ("rx." ++ name) d))
      by now apply select_component_In.
    rewrite Hsel in Hc. destruct Hc.
  - cbn [fetchone]. eexists. split; [reflexivity|]. cbn [ci_name component_info].
    assert (Hfirst : In first (select_component ("rx." ++ name) d))
      by (rewrite Hsel; now left).
    now apply select_component_In in Hfirst.
Qed.

Lemma get_component_by_name_prefers_rx_witness :
  Py.startswith "rx." "box" = false
  /\ In {| c_id := 1; c_name := "rx.box"; c_category := Some "layout";
           c_description := "A container";
           c_doc_slug := Some "library/layout/box";
           c_url := Some box_url |} (components box_db)
  /\ (exists found,
        get_component_by_name "box" box_db = Some found
        /\ ci_name found = "rx.box").
Proof.
  split; [reflexivity|]. split; [left; reflexivity|].
  apply (get_component_by_name_prefers_rx "box" box_db
           {| c_id := 1; c_name := "rx.box"; c_category := Some "layout";
              c_description := "A container";
              c_doc_slug := Some "library/layout/box";
              c_url := Some box_url |}).
  - reflexivity.
  - left. reflexivity.
  - reflexivity.
Defined.

(** ** Statistics after a write *)

Lemma distinct_app_one (l : list string) (x : string) :
  distinct (l ++ [x])
  = distinct l ++ (if existsb (fun y => (y =? x)%string) l then [] else [x]).
Proof.
  induction l as [|a l IH]; [reflexivity|].
  cbn [app distinct existsb]. rewrite IH, filter_app. f_equal.
  destruct (String.eqb_spec a x) as [-> | Hne]; cbn [orb].
  - destruct (existsb _ l); [reflexivity|]. cbn [filter].
    now rewrite String.eqb_refl.
  - destruct (existsb _ l); [reflexivity|]. cbn [filter].
    apply not_eq_sym in Hne. apply String.eqb_neq in Hne. now rewrite Hne.
Qed.

Lemma existsb_slugs (f : string -> bool) (l : list SectionRow) :
  existsb f (map s_slug l) = existsb (fun r => f (s_slug r)) l.
Proof. induction l as [|r l IH]; [reflexivity|]. cbn. now rewrite IH. Qed.

(** X5.  A stored section raises the section count by one, the page count
    by one exactly when its slug is new, and leaves the component count. *)
Theorem get_stats_after_insert_section
  (slug title heading : string) (level : Z) (content : string)
  (position : Z) (url : string) (d d' : Database) :
  insert_section slug title heading level content position url d
  = Returned d' ->
  get_stats d'
  = {| st_sections := S (st_sections (get_stats d));
       st_pages := st_pages (get_stats d)
                   + (if slug_stored slug d then 0 else 1);
       st_components := st_components (get_stats d) |}.
Proof.
  intros Hins. apply insert_section_returned in Hins. subst d'.
  unfold get_stats, slug_stored.
  cbn [docs_sections components docs_sections_ai section_insert
       st_sections st_pages st_components].
  rewrite map_app, length_app. cbn [map s_slug List.length].
  rewrite distinct_app_one, length_app, existsb_slugs, Nat.add_1_r.
  f_equal. f_equal.
  now destruct (existsb _ (docs_sections d)).
Qed.

Lemma get_stats_after_insert_section_witness :
  insert_section "guide" "Guide" "Intro" 1 "first words" 0 "u" init_db
  = Returned guide_db
  /\ get_stats guide_db
     = {| st_sections := S (st_sections (get_stats init_db));
          st_pages := st_pages (get_stats init_db)
                      + (if slug_stored "guide" init_db then 0 else 1);
          st_components := st_components (get_stats init_db) |}.
Proof.
  split; [reflexivity|].
  apply (get_stats_after_insert_section "guide" "Guide" "Intro" 1
           "first words" 0 "u" init_db guide_db).
  reflexivity.
Defined.

Lemma name_stored_iff (name : string) (d : Database) :
  name_stored name d = true
  <-> exists c, In c (components d) /\ c_name c = name.
Proof.
  unfold name_stored. rewrite existsb_exists.
  split; intros (c & Hin & Hc); exists c; (split; [exact Hin|]);
    now apply String.eqb_eq.
Qed.

Lemma filter_keeps_all {A : Type} (f : A -> bool) (l : list A) :
  (forall x, In x l -> f x = true) -> filter f l = l.
Proof.
  induction l as [|x l IH]; intros H; [reflexivity|]. cbn [filter].
  rewrite (H x) by now left. f_equal. apply IH. intros y Hy. apply H. now right.
Qed.

(** X6.  After any history, an upsert leaves the section and page counts
    and raises the component count by one exactly when its name is new. *)
Theorem get_stats_after_insert_component
  (h : list event) (name : string) (category : option string)
  (description : string) (doc_slug url : option string) :
  let d := replay h init_db in
  get_stats (insert_component name category description doc_slug url d)
  = {| st_sections := st_sections (get_stats d);
       st_pages := st_pages (get_stats d);
       st_components := if name_stored name d
                        then st_components (get_stats d)
                        else S (st_components (get_stats d)) |}.
Proof.
  intros d. rewrite insert_component_applied. unfold get_stats.
  cbn [docs_sections components st_sections st_pages st_components].
  f_equal. rewrite length_app, Nat.add_1_r. cbn [List.length].
  destruct (name_stored name d) eqn:Hstored.
  - apply displaced_length.
    + apply (replay_names_unique h init_db). constructor.
    + now apply name_stored_iff.
  - f_equal. f_equal. apply filter_keeps_all. intros c Hc.
    apply negb_true_iff, String.eqb_neq. intros Hname.
    assert (Hyes : name_stored name d = true)
      by (apply name_stored_iff; now exists c).
    congruence.
Qed.

(** ** Search over a store whose index is in step *)









(** X8.  No search result carries a negative score. *)
Theorem search_sections_score_nonnegative
  (E : Fts5Engine) (query : string) (limit : Z) (d : Database)
  (rs : list DocResult) (r : DocResult) :
  search_sections E query limit d = Returned rs ->
  In r rs ->
  (0 <= r_score r)%Q.
Proof.
  intros Hsearch Hin.
  apply search_sections_returned in Hsearch as [-> | (expr & ->)];
    [destruct Hin|].
  apply in_map_iff in Hin as (row & <- & _). apply Qabs_nonneg.
Qed.

Lemma search_sections_score_nonnegative_witness :
  search_sections phrase_engine "box" 1 box_db = Returned [box_hit_usage]
  /\ In box_hit_usage [box_hit_usage]
  /\ (0 <= r_score box_hit_usage)%Q.
Proof.
  split; [reflexivity|]. split; [left; reflexivity|].
  apply (search_sections_score_nonnegative phrase_engine "box" 1 box_db
           [box_hit_usage] box_hit_usage).
  - reflexivity.
  - left. reflexivity.
Defined.

(** X9.  After [clear_db] a search finds nothing: whatever the index still
    holds, no section is left to join it with. *)
Theorem search_sections_after_clear_db
  (E : Fts5Engine) (query : string) (limit : Z) (d : Database)
  (rs : list DocResult) :
  search_sections E query limit (clear_db d) = Returned rs ->
  rs = [].
Proof.
  intros Hsearch.
  apply search_sections_returned in Hsearch as [-> | (expr & ->)];
    [reflexivity|].
  unfold select_search_rows, matching_rows. rewrite clear_db_applied.
  cbn [docs_sections docs_sections_fts filter map].
  replace (flat_map _ _) with (@nil SearchRow).
  - unfold sql_limit. destruct (limit <? 0)%Z; [reflexivity|].
    now rewrite firstn_nil.
  - symmetry.
    induction (filter _ (docs_sections_fts d)) as [|e l IH]; [reflexivity|].
    cbn [flat_map]. rewrite IH. now destruct (fts5_match E expr e).
Qed.

Lemma search_sections_after_clear_db_witness :
  search_sections phrase_engine "box" 10 (clear_db box_db) = Returned []
  /\ @nil DocResult = [].
Proof.
  split; [reflexivity|].
  apply (search_sections_after_clear_db phrase_engine "box" 10 box_db []).
  reflexivity.
Defined.

(** ** The terms of a query *)

Lemma split_from_lstrip (s : string) :
  Py.split_from EmptyString (Py.lstrip s) = Py.split_from EmptyString s.
Proof.
  induction s as [|c s IH]; [reflexivity|]. cbn [Py.lstrip Py.split_from].
  destruct (Py.isspace c) eqn:Hc; [exact IH|].
  cbn [Py.split_from]. now rewrite Hc.
Qed.

Lemma split_from_rstrip (s cur : string) :
  Py.split_from cur (Py.rstrip s) = Py.split_from cur s.
Proof.
  revert cur. induction s as [|c s IH]; intros cur; [reflexivity|].
  cbn [Py.rstrip]. destruct (Py.rstrip s) as [|c' r] eqn:Hr.
  - destruct (Py.isspace c) eqn:Hc; cbn [Py.split_from]; rewrite Hc.
    + destruct cur; now rewrite <- IH.
    + now rewrite <- IH.
  - cbn [Py.split_from]. destruct (Py.isspace c).
    + destruct cur; now rewrite <- IH.
    + now rewrite <- IH.
Qed.

Lemma no_space_snoc (cur : string) (c : ascii) :
  no_space cur = true -> Py.isspace c = false ->
  no_space (cur ++ String c EmptyString) = true.
Proof.
  induction cur as [|a cur IH]; cbn [append no_space]; intros Hcur Hc.
  - now rewrite Hc.
  - apply andb_true_iff in Hcur as [Ha Hcur]. rewrite Ha. now apply IH.
Qed.

Lemma split_from_terms (s cur : string) :
  no_space cur = true -> Forall is_term (Py.split_from cur s).
Proof.
  revert cur. induction s as [|c s IH]; intros cur Hcur; cbn [Py.split_from].
  - destruct cur; constructor; [|constructor]. split; [discriminate | exact Hcur].
  - destruct (Py.isspace c) eqn:Hc.
    + destruct cur as [|a cur]; [now apply IH|].
      constructor; [split; [discriminate | exact Hcur] | now apply IH].
    + apply IH. now apply no_space_snoc.
Qed.

(** X10.  Every term of a query is non-empty and free of white space, and
    stripping the query before splitting it changes nothing. *)
Theorem query_terms (query : string) :
  Py.split (Py.strip query) = Py.split query
  /\ Forall is_term (Py.split (Py.strip query)).
Proof.
  assert (H : Py.split (Py.strip query) = Py.split query).
  { unfold Py.split, Py.strip. now rewrite split_from_rstrip, split_from_lstrip. }
  split; [exact H|]. rewrite H. now apply split_from_terms.
Qed.

Lemma plain_snoc (cur : string) (c : ascii) :
  plain cur = true -> plain_char c = true ->
  plain (cur ++ String c EmptyString) = true.
Proof.
  induction cur as [|a cur IH]; cbn [append plain]; intros Hcur Hc.
  - now rewrite Hc.
  - apply andb_true_iff in Hcur as [Ha Hcur]. rewrite Ha. now apply IH.
Qed.

Lemma split_from_plain (s cur : string) :
  plain cur = true -> plain s = true ->
  Forall (fun t => plain t = true) (Py.split_from cur s).
Proof.
  revert cur. induction s as [|c s IH]; intros cur Hcur Hs;
    cbn [Py.split_from].
  - destruct cur; constructor; [exact Hcur | constructor].
  - cbn [plain] in Hs. apply andb_true_iff in Hs as [Hc Hs].
    destruct (Py.isspace c).
    + destruct cur as [|a cur]; [now apply IH|].
      constructor; [exact Hcur | now apply IH].
    + apply IH; [now apply plain_snoc | exact Hs].
Qed.

Lemma split_plain (query : string) :
  plain query = true ->
  Forall (fun t => plain t = true) (Py.split (Py.strip query)).
Proof.
  intros H.
  replace (Py.split (Py.strip query)) with (Py.split query).
  - now apply split_from_plain.
  - unfold Py.split, Py.strip.
    now rewrite split_from_rstrip, split_from_lstrip.
Qed.

(** X11.  For a query without a double quote (and without NUL) the engine is
    handed one string token per term, holding the term as typed: no error
    arises from reading the text, and no character of the query is read as
    an operator.  With terms and a limit that fits, the search returns
    whenever the engine accepts those strings. *)
Theorem search_sections_plain_query
  (E : Fts5Engine) (query : string) (limit : Z) (d : Database) :
  plain query = true ->
  let terms := Py.split (Py.strip query) in
  fts5_tokens (escaped_query terms) = inr (map FTS5_STRING terms)
  /\ (terms <> [] -> fits_int64 limit = true ->
      search_sections E query limit d
      = match fts5_parse E (map FTS5_STRING terms) with
        | Some expr =>
            Returned (map doc_result (select_search_rows E expr limit d))
        | None => Raised (OperationalError "fts5: syntax error")
        end).
Proof.
  intros Hplain terms.
  assert (Htokens : fts5_tokens (escaped_query terms)
                    = inr (map FTS5_STRING terms)).
  { apply escaped_query_tokens. now apply split_plain. }
  split; [exact Htokens|]. intros Hterms Hfits. unfold search_sections.
  fold terms. destruct terms as [|t ts]; [congruence|].
  now rewrite Hfits, Htokens.
Qed.

Lemma search_sections_plain_query_witness :
  plain "rx.box on-click:" = true
  /\ fts5_tokens (escaped_query (Py.split (Py.strip "rx.box on-click:")))
     = inr (map FTS5_STRING (Py.split (Py.strip "rx.box on-click:")))
  /\ (Py.split (Py.strip "rx.box on-click:") <> [] ->
      fits_int64 10 = true ->
      search_sections phrase_engine "rx.box on-click:" 10 box_db
      = match fts5_parse phrase_engine
                (map FTS5_STRING (Py.split (Py.strip "rx.box on-click:")))
        with
        | Some expr =>
            Returned
              (map doc_result (select_search_rows phrase_engine expr 10 box_db))
        | None => Raised (OperationalError "fts5: syntax error")
        end).
Proof.
  split; [reflexivity|].
  apply (search_sections_plain_query phrase_engine "rx.box on-click:" 10
           box_db).
  reflexivity.
Defined.

(** ** Listing by category *)

Lemma by_name_total (a b : ComponentRow) :
  by_name a b = false -> by_name b a = true.
Proof.
  unfold by_name. intros Hab.
  destruct (String.leb_total (c_name a) (c_name b)) as [H | H]; congruence.
Qed.

(** X12.  With a category that is not empty the listing holds exactly the
    stored components of that category, once each and in ascending order of
    name; a component without category is in no such listing. *)
Theorem list_all_components_by_category (category : string) (d : Database) :
  category <> EmptyString ->
  Permutation (list_all_components (Some category) d)
    (map component_info (filter (category_is category) (components d)))
  /\ Sorted name_le (list_all_components (Some category) d)
  /\ (forall c, In c (list_all_components (Some category) d) ->
                ci_category c = Some category).
Proof.
  intros Hcat. unfold list_all_components.
  destruct category as [|a k]; [congruence|]. cbn [Py.truthy].
  split; [|split].
  - apply Permutation_map, order_by_perm.
  - apply Sorted_map. apply (order_by_sorted by_name), by_name_total.
  - intros c Hc. apply in_map_iff in Hc as (row & <- & Hrow).
    apply order_by_In, filter_In in Hrow as [_ Hrow].
    unfold category_is in Hrow. cbn [ci_category component_info].
    destruct (c_category row) as [k'|]; [|discriminate].
    apply String.eqb_eq in Hrow. now subst.
Qed.

Lemma list_all_components_by_category_witness :
  "layout" <> EmptyString
  /\ Permutation (list_all_components (Some "layout") box_db)
       (map component_info (filter (category_is "layout") (components box_db)))
  /\ Sorted name_le (list_all_components (Some "layout") box_db)
  /\ (forall c, In c (list_all_components (Some "layout") box_db) ->
                ci_category c = Some "layout").
Proof.
  split; [discriminate|].
  apply (list_all_components_by_category "layout" box_db). discriminate.
Defined.

(** ** The endpoints *)

(** X13.  [GET /search] refuses a limit outside 1..50.  Within these bounds
    it answers 200 with at most [limit] results, their number in [count]
    and the query echoed, or 500 with the message of the exception that the
    search raised; it never answers otherwise. *)
Theorem search_docs_responses
  (E : Fts5Engine) (query : string) (limit : Z) (d : Database) :
  ((limit < 1 \/ 50 < limit)%Z ->
   Api.search_docs E query limit d = RequestValidationError)
  /\ ((1 <= limit <= 50)%Z ->
      (exists results,
          search_sections E query limit d = Returned results
          /\ (Z.of_nat (List.length results) <= limit)%Z
          /\ Api.search_docs E query limit d
             = Ok200 {| sp_query := query; sp_results := results;
                        sp_count := List.length results |})
      \/ (exists e,
             search_sections E query limit d = Raised e
             /\ Api.search_docs E query limit d
                = HTTPException 500 (str_exn e))).
Proof.
  unfold Api.search_docs. split.
  - intros Hout.
    destruct (Z.leb_spec 1 limit); destruct (Z.leb_spec limit 50);
      cbn [andb]; try reflexivity; lia.
  - intros [Hlo Hhi].
    apply Z.leb_le in Hlo as Hlo'. apply Z.leb_le in Hhi as Hhi'.
    rewrite Hlo', Hhi'. cbn [andb].
    destruct (search_sections E query limit d) as [results | e] eqn:Hsearch.
    + left. exists results. repeat split.
      apply search_sections_returned in Hsearch as [-> | (expr & ->)].
      * simpl. lia.
      * rewrite length_map. apply sql_limit_length. lia.
    + right. now exists e.
Qed.

(** X14.  [GET /search] answers a blank query with 200 and no results, and
    the query made of one double quote with 500. *)
Theorem search_docs_blank_and_quote
  (E : Fts5Engine) (query : string) (limit : Z) (d : Database) :
  (1 <= limit <= 50)%Z ->
  (all_space query = true ->
   Api.search_docs E query limit d
   = Ok200 {| sp_query := query; sp_results := []; sp_count := 0 |})
  /\ Api.search_docs E quote_mark limit d
     = HTTPException 500 "unterminated string".
Proof.
  intros [Hlo Hhi]. unfold Api.search_docs.
  apply Z.leb_le in Hlo as Hlo'. apply Z.leb_le in Hhi as Hhi'.
  rewrite Hlo', Hhi'. cbn [andb]. split.
  - intros Hblank. unfold search_sections.
    now rewrite terms_of_blank_query.
  - unfold search_sections.
    assert (Hfits : fits_int64 limit = true).
    { apply fits_int64_bounds. lia. }
    cbn. now rewrite Hfits.
Qed.

Lemma search_docs_blank_and_quote_witness :
  (1 <= 10 <= 50)%Z
  /\ (all_space "  " = true ->
      Api.search_docs phrase_engine "  " 10 box_db
      = Ok200 {| sp_query := "  "; sp_results := []; sp_count := 0 |})
  /\ Api.search_docs phrase_engine quote_mark 10 box_db
     = HTTPException 500 "unterminated string".
Proof.
  split; [lia|].
  apply (search_docs_blank_and_quote phrase_engine "  " 10 box_db). lia.
Defined.

Lemma slug_stored_iff (slug : string) (d : Database) :
  slug_stored slug d = true
  <-> exists r, In r (docs_sections d) /\ s_slug r = slug.
Proof.
  unfold slug_stored. rewrite existsb_exists.
  split; intros (r & Hin & Hr); exists r; (split; [exact Hin|]);
    now apply String.eqb_eq.
Qed.

(** X15.  [GET /doc/...] answers 404, naming the slug, exactly when no
    section carries the slug; otherwise 200 with the page of that slug,
    holding one section for each stored row of the slug. *)
Theorem get_doc_responses (slug : string) (d : Database) :
  (slug_stored slug d = false ->
   Api.get_doc slug d
   = HTTPException 404 ("Document not found: " ++ slug))
  /\ (slug_stored slug d = true ->
      exists page,
        Api.get_doc slug d = Ok200 page
        /\ p_slug page = slug
        /\ List.length (p_sections page)
           = List.length
               (filter (fun r => (s_slug r =? slug)%string) (docs_sections d))).
Proof.
  unfold Api.get_doc, get_page_sections.
  pose proof (select_page_rows_perm slug d) as Hperm.
  split; intros Hstored.
  - destruct (select_page_rows slug d) as [|first rest]; [reflexivity|].
    assert (Hin : In first
                    (filter (fun r => (s_slug r =? slug)%string)
                       (docs_sections d)))
      by (apply (Permutation_in _ Hperm); now left).
    apply filter_In in Hin as [Hin Hslug]. apply String.eqb_eq in Hslug.
    assert (Hyes : slug_stored slug d = true)
      by (apply slug_stored_iff; now exists first).
    congruence.
  - apply slug_stored_iff in Hstored as (r & Hr & Hslug).
    destruct (select_page_rows slug d) as [|first rest] eqn:Hrows.
    + assert (Hin : In r (filter (fun r => (s_slug r =? slug)%string)
                            (docs_sections d))).
      { apply filter_In. split; [exact Hr | now apply String.eqb_eq]. }
      apply (Permutation_in _ (Permutation_sym Hperm)) in Hin. destruct Hin.
    + eexists. split; [reflexivity|]. cbn [p_slug p_sections]. split.
      * assert (Hin : In first
                        (filter (fun r => (s_slug r =? slug)%string)
                           (docs_sections d)))
          by (apply (Permutation_in _ Hperm); now left).
        apply filter_In in Hin as [_ Hin]. now apply String.eqb_eq.
      * rewrite length_map. now apply Permutation_length.
Qed.

Lemma fetchone_select (name : string) (d : Database) :
  match fetchone (select_component name d) with
  | Some c => name_stored name d = true /\ c_name c = name
  | None => name_stored name d = false
  end.
Proof.
  destruct (select_component name d) as [|c rest] eqn:Hsel; cbn [fetchone].
  - destruct (name_stored name d) eqn:Hstored; [|reflexivity].
    apply name_stored_iff in Hstored as (c & Hc).
    apply select_component_In in Hc. rewrite Hsel in Hc. destruct Hc.
  - assert (Hc : In c (select_component name d)) by (rewrite Hsel; now left).
    apply select_component_In in Hc as [Hin Hname]. split; [|exact Hname].
    apply name_stored_iff. now exists c.
Qed.

(** X16.  [GET /component/...] answers 404, naming the input, exactly when
    neither of the two names tried is stored: the input with [rx.] in front
    unless it starts with it, and the input with every [rx.] removed.
    Otherwise it answers 200 with a component stored under one of the
    two. *)
Theorem get_component_responses (name : string) (d : Database) :
  let first := search_name name in
  let second := Py.replace "rx." EmptyString name in
  (name_stored first d = false /\ name_stored second d = false ->
   Api.get_component name d
   = HTTPException 404 ("Component not found: " ++ name))
  /\ (name_stored first d = true \/ name_stored second d = true ->
      exists c,
        Api.get_component name d = Ok200 c
        /\ (ci_name c = first \/ ci_name c = second)
        /\ (name_stored first d = true -> ci_name c = first)).
Proof.
  intros first second. unfold Api.get_component, get_component_by_name.
  fold first second.
  pose proof (fetchone_select first d) as H1.
  pose proof (fetchone_select second d) as H2.
  destruct (fetchone (select_component first d)) as [c1|].
  - destruct H1 as [Hs1 Hn1]. split; [intros [Hno _]; congruence|].
    intros _. exists (component_info c1). repeat split; now try left.
  - destruct (fetchone (select_component second d)) as [c2|].
    + destruct H2 as [Hs2 Hn2]. split; [intros [_ Hno]; congruence|].
      intros _. exists (component_info c2). repeat split; [now right|].
      congruence.
    + split; [reflexivity|]. intros [Hyes | Hyes]; congruence.
Qed.

(** X17.  [GET /] reports the store as ready exactly when it holds a
    section: not after [clear_db], always after a stored section, and an
    upsert of a component changes nothing about it. *)
Theorem health_check_readiness (d : Database) :
  (hr_database_ready (Api.health_check d) = true
   <-> docs_sections d <> [])
  /\ hr_status (Api.health_check d)
     = (if hr_database_ready (Api.health_check d)
        then "healthy" else "no_data")
  /\ hr_status (Api.health_check (clear_db d)) = "no_data"
  /\ (forall slug title heading level content position url d',
        insert_section slug title heading level content position url d
        = Returned d' ->
        hr_status (Api.health_check d') = "healthy")
  /\ (forall name category description doc_slug url,
        hr_database_ready
          (Api.health_check
             (insert_component name category description doc_slug url d))
        = hr_database_ready (Api.health_check d)).
Proof.
  unfold Api.health_check, get_stats.
  cbn [hr_database_ready hr_status st_sections].
  split; [split | split; [reflexivity | split; [|split]]].
  - intros H Hnil. rewrite Hnil in H. discriminate.
  - intros H. destruct (docs_sections d); [congruence | reflexivity].
  - now rewrite clear_db_applied.
  - intros slug title heading level content position url d' Hins.
    apply insert_section_returned in Hins. subst d'.
    cbn [docs_sections docs_sections_ai section_insert].
    rewrite length_app, Nat.add_1_r. reflexivity.
  - intros. now rewrite insert_component_applied.
Qed.

(** ** Section ids *)

Lemma perform_seq_grows (c : call) (d : Database) :
  (docs_sections_seq d <= docs_sections_seq (perform c d))%Z.
Proof.
  destruct c as [slug title heading level content position url
                | name category description doc_slug url | ]; cbn [perform].
  - destruct (insert_section _ _ _ _ _ _ _ d) as [d'|] eqn:Hins; [|lia].
    apply insert_section_returned in Hins. subst d'. simpl. lia.
  - rewrite insert_component_applied. simpl. lia.
  - rewrite clear_db_applied. simpl. lia.
Qed.

Lemma replay_seq_grows (h : list event) (d : Database) :
  (docs_sections_seq d <= docs_sections_seq (replay h d))%Z.
Proof.
  revert d. induction h as [|e h IH]; intros d; cbn [replay fold_left]; [lia|].
  etransitivity; [|apply IH]. destruct e as [c | c k]; cbn [happen].
  - apply perform_seq_grows.
  - rewrite interrupted_keeps. lia.
Qed.

(** X18.  Section ids are never handed out twice: whatever happens between,
    [clear_db] included, a section stored later gets an id above the id of
    every section that was stored at some earlier time. *)
Theorem section_ids_never_reused
  (h later : list event) (slug title heading : string) (level : Z)
  (content : string) (position : Z) (url : string) (d' : Database) :
  let before := replay h init_db in
  let now := replay later before in
  insert_section slug title heading level content position url now
  = Returned d' ->
  exists id,
    docs_sections d'
    = docs_sections now
      ++ [{| s_id := id; s_slug := slug; s_title := title;
             s_heading := heading; s_level := level; s_content := content;
             s_position := position; s_url := url |}]
    /\ (forall r, In r (docs_sections before) -> (s_id r < id)%Z).
Proof.
  intros before now Hins. apply insert_section_returned in Hins. subst d'.
  exists (docs_sections_seq now + 1)%Z. split; [reflexivity|].
  intros r Hr.
  destruct (replay_consistent h init_db init_db_consistent) as [_ Hissued].
  fold before in Hissued. unfold ids_issued in Hissued.
  rewrite Forall_forall in Hissued. apply Hissued in Hr.
  pose proof (replay_seq_grows later before) as Hgrow. fold now in Hgrow. lia.
Qed.

Lemma section_ids_never_reused_witness :
  insert_section "guide" "Guide" "Intro" 1 "first words" 0 "u"
    (replay [Completed ClearDb] (replay box_history init_db))
  = Returned
      (perform (InsertSection "guide" "Guide" "Intro" 1 "first words" 0 "u")
         (clear_db box_db))
  /\ exists id,
      docs_sections
        (perform (InsertSection "guide" "Guide" "Intro" 1 "first words" 0 "u")
           (clear_db box_db))
      = docs_sections (replay [Completed ClearDb] (replay box_history init_db))
        ++ [{| s_id := id; s_slug := "guide"; s_title := "Guide";
               s_heading := "Intro"; s_level := 1;
               s_content := "first words"; s_position := 0; s_url := "u" |}]
      /\ (forall r, In r (docs_sections (replay box_history init_db)) ->
                    (s_id r < id)%Z).
Proof.
  split; [reflexivity|].
  apply (section_ids_never_reused box_history [Completed ClearDb]
           "guide" "Guide" "Intro" 1 "first words" 0 "u").
  reflexivity.
Defined.

(** ** Sections and components do not touch each other *)

(** X19.  An upsert of a component changes no page and no search result; a
    stored section changes no component listing and no component lookup. *)
Theorem sections_and_components_independent (E : Fts5Engine) (d : Database) :
  (forall name category description doc_slug url,
      let d' := insert_component name category description doc_slug url d in
      (forall slug, get_page_sections slug d' = get_page_sections slug d)
      /\ (forall query limit,
             search_sections E query limit d' = search_sections E query limit d))
  /\ (forall slug title heading level content position url d',
         insert_section slug title heading level content position url d
         = Returned d' ->
         (forall category,
             list_all_components category d' = list_all_components category d)
         /\ (forall name,
                get_component_by_name name d' = get_component_by_name name d)).
Proof.
  split.
  - intros name category description doc_slug url d'. subst d'.
    rewrite insert_component_applied. split.
    + reflexivity.
    + reflexivity.
  - intros slug title heading level content position url d' Hins.
    apply insert_section_returned in Hins. subst d'. split; reflexivity.
Qed.

(** X20.  Without a category, or with the empty one, [GET /components]
    counts as many components as [GET /stats] reports. *)
Theorem list_components_count_is_stats (d : Database) :
  cr_count (Api.list_components None d) = st_components (Api.get_stats d)
  /\ cr_count (Api.list_components (Some EmptyString) d)
     = st_components (Api.get_stats d).
Proof.
  unfold Api.list_components, Api.get_stats, get_stats, list_all_components.
  cbn [cr_count st_components Py.truthy].
  now rewrite length_map, order_by_length.
Qed.
